(** * glayout/llm/train_and_run.py: model selection, checkpoint discovery
      and the conversation session of [GlayoutLLMSessionHandler]

    The module is embedded shallowly.  Pure parts of the Python code are Rocq
    functions; code that mutates the module globals or the session object, or
    that may raise, runs in a small state-and-exception monad.  Calls into
    the libraries the module imports (transformers, peft, trl, the RAG
    database, the file system) are answered by an [Oracle] and are recorded,
    with their arguments, in a trace. *)

From Stdlib Require Import List String Ascii ZArith Lia Bool PeanoNat.
Import ListNotations.
Open Scope string_scope.

Set Implicit Arguments.
Set Warnings "-register-all".

(** ** Python strings

    A [string] is a sequence of code points below 256; one [ascii] stands
    for one code point.  [isspace] and [lower] follow [str.isspace] and
    [str.lower] on that range. *)

Module PyStr.

Definition isspace (c : ascii) : bool :=
  let n := nat_of_ascii c in
  (((9 <=? n) && (n <=? 13)) || ((28 <=? n) && (n <=? 32))
   || (n =? 133) || (n =? 160))%nat.

Fixpoint lstrip (s : string) : string :=
  match s with
  | EmptyString => EmptyString
  | String c t => if isspace c then lstrip t else s
  end.

Fixpoint rstrip (s : string) : string :=
  match s with
  | EmptyString => EmptyString
  | String c t =>
      match rstrip t with
      | EmptyString => if isspace c then EmptyString else String c EmptyString
      | t' => String c t'
      end
  end.

(** [s.strip()] *)
Definition strip (s : string) : string := rstrip (lstrip s).

Definition lower_char (c : ascii) : ascii :=
  let n := nat_of_ascii c in
  if (((65 <=? n) && (n <=? 90))
      || ((192 <=? n) && (n <=? 222) && negb (n =? 215)))%nat
  then ascii_of_nat (n + 32) else c.

(** [s.lower()] *)
Fixpoint lower (s : string) : string :=
  match s with
  | EmptyString => EmptyString
  | String c t => String (lower_char c) (lower t)
  end.

(** [sub in s] *)
Fixpoint contains (sub s : string) : bool :=
  if String.prefix sub s then true
  else match s with
       | EmptyString => false
       | String _ t => contains sub t
       end.

End PyStr.

(** ** Exceptions and outcomes *)

Inductive exn : Type :=
| ValueError (msg : string)
| IndexError
| AttributeError
| LibraryError (origin : string).

Inductive outcome (A : Type) : Type :=
| Returned (a : A)
| Raised (e : exn).
Arguments Returned {A} a.
Arguments Raised {A} e.

(** ** Values the module handles *)

(** What [json.load] returns. *)
Inductive pyval : Type :=
| PNone
| PBool (b : bool)
| PInt (z : Z)
| PStr (s : string)
| PList (items : list pyval)
| PDict (items : list (string * pyval)).

(** A path below the directory of the module, as its components. *)
Definition path : Type := list string.

Inductive role : Type := user | assistant.

(** [{"role": r, "content": c}] *)
Record message : Type := Message { msg_role : role; content : string }.

(** A batch of token id sequences, as [return_tensors="pt"] and
    [model.generate] produce. *)
Definition tensor : Type := list (list Z).

(** The arguments of [DataCollatorForCompletionOnlyLM]. *)
Record collator : Type := Collator {
  response_template : string;
  instruction_template : string
}.

(** A model handle, by the way it was obtained. *)
Inductive Model : Type :=
| PeftFromCheckpoint (checkpoint_dir : path)
| QuantizedModel (modelname : string)
| PeftModel (modelname : string) (target_modules : list string).

(** A tokenizer handle: the identifier given to
    [AutoTokenizer.from_pretrained] and the pad token added afterwards. *)
Record Tokenizer : Type := MkTokenizer {
  tok_source : pyval;
  tok_pad_token : option string
}.

(** An entry of the directory tree below the module. *)
Inductive node : Type :=
| File (name : string)
| Dir (name : string) (children : list node).

(** ** Calls that leave the module *)

Inductive event : Type :=
| EvGlob (pattern : string)
| EvPeftFromPretrained (checkpoint_dir : path)
| EvOpenJson (file : path)
| EvTokenizerFromPretrained (model_id : pyval)
| EvAutoModelFromPretrained (modelname : string)
| EvInput (prompt : string)
| EvLoadData
| EvTrain (m : Model) (c : collator) (output_dir : path)
| EvSavePretrained (m : Model) (dir : path)
| EvRAGdb (dir : path)
| EvRagQuery (query_text : string) (k : nat)
| EvApplyChatTemplate (messages : list message)
| EvModelGenerate (m : Model) (input_ids : tensor) (max_new_tokens : Z)
    (pad_token_id : option Z)
| EvDecode (token_ids : list Z) (skip_special_tokens : bool).

(** The answers of the libraries.  An answer that takes a [nat] may depend
    on the number of calls made before it, so that a call can fail once and
    succeed when repeated. *)
Record Oracle : Type := {
  tree : node;
  cuda_is_available : bool;
  get_glayout_context : string;
  peft_from_pretrained : nat -> path -> outcome unit;
  open_json : nat -> path -> outcome pyval;
  tokenizer_from_pretrained : nat -> pyval -> outcome unit;
  automodel_from_pretrained : nat -> string -> outcome unit;
  input : nat -> outcome unit;
  load_data : nat -> outcome unit;
  trainer_train : nat -> outcome unit;
  rag_query : string -> nat -> list (option string);
  apply_chat_template : nat -> list message -> outcome tensor;
  model_generate : nat -> Model -> tensor -> Z -> option Z -> outcome tensor;
  decode : list Z -> bool -> string;
  pad_token_id : Tokenizer -> option Z
}.

(** The module globals and the trace of the calls made so far. *)
Record world : Type := World {
  microsoft_model : bool;
  mistral_model : bool;
  trace : list event
}.

(** ** The monad *)

Definition M (S A : Type) : Type := S -> S * outcome A.

Definition ret {S A} (a : A) : M S A := fun s => (s, Returned a).

Definition raise {S A} (e : exn) : M S A := fun s => (s, Raised e).

Definition bind {S A B} (m : M S A) (k : A -> M S B) : M S B :=
  fun s =>
    match m s with
    | (s', Returned a) => k a s'
    | (s', Raised e) => (s', Raised e)
    end.

Definition get {S} : M S S := fun s => (s, Returned s).

Definition modify {S} (f : S -> S) : M S unit := fun s => (f s, Returned tt).

Definition lift_outcome {S A} (o : outcome A) : M S A := fun s => (s, o).

Declare Scope monad_scope.
Delimit Scope monad_scope with monad.
Notation "x <- m ;; k" := (bind m (fun x => k))
  (at level 61, m at next level, right associativity) : monad_scope.
Notation "m ;;; k" := (bind m (fun _ => k))
  (at level 61, right associativity) : monad_scope.
Open Scope monad_scope.

Definition log (ev : event) (w : world) : world :=
  {| microsoft_model := microsoft_model w;
     mistral_model := mistral_model w;
     trace := trace w ++ [ev] |}.

(** One call that leaves the module: it is recorded, and answered from the
    number of calls recorded before it. *)
Definition extern {A} (ev : event) (answer : nat -> outcome A) : M world A :=
  fun w => (log ev w, answer (List.length (trace w))).

(** ** Choice of the model (lines 68-81 of [load_model_and_tokenizer]) *)

Record descriptor : Type := Descriptor {
  modelname : string;
  target_modules : list string
}.

Definition invalid_model_key : exn :=
  ValueError "a model must be provided from 3b, 7b, or 22b".

(** The model name and the LoRA target modules chosen for a model size. *)
Definition model_catalog (model : string) : outcome descriptor :=
  let model := PyStr.lower (PyStr.strip model) in
  if model =? "3b" then
    Returned (Descriptor "microsoft/Phi-3-mini-128k-instruct" ["qkv_proj"])
  else if model =? "7b" then
    Returned (Descriptor "mistralai/Mistral-7B-Instruct-v0.3"
                         ["q_proj"; "k_proj"; "v_proj"])
  else if model =? "22b" then
    Returned (Descriptor "mistralai/Codestral-22B-v0.1"
                         ["q_proj"; "k_proj"; "v_proj"])
  else Raised invalid_model_key.

(** ** Choice of the data collator (lines 273-278 of
       [run_full_SFT_training]) *)

Definition unsupported_family : exn :=
  ValueError "could not find a valid model, please specify a model type either mistral models or microsoft (phi) models".

Definition select_data_collator (microsoft mistral : bool) : outcome collator :=
  if microsoft then
    Returned {| response_template := "<|assistant|>";
                instruction_template := "<|user|>" |}
  else if mistral then
    Returned {| response_template := "[/INST]";
                instruction_template := "[INST]" |}
  else Raised unsupported_family.

(** ** Python sequences *)

(** [l[i]] for [i >= 0] *)
Definition index {A} (l : list A) (i : nat) : outcome A :=
  match nth_error l i with
  | Some a => Returned a
  | None => Raised IndexError
  end.

(** [l[-1]] *)
Definition index_last {A} (l : list A) : outcome A :=
  match rev l with
  | a :: _ => Returned a
  | [] => Raised IndexError
  end.

(** The bound [i] of a slice of a sequence of length [len]: a negative
    bound counts from the end, and the result is clamped to [0..len]. *)
Definition slice_bound (len i : Z) : Z :=
  let i := if (i <? 0)%Z then (i + len)%Z else i in
  Z.max 0 (Z.min len i).

(** [l[start:stop]] *)
Definition slice {A} (l : list A) (start stop : Z) : list A :=
  let len := Z.of_nat (List.length l) in
  let lo := slice_bound len start in
  let hi := slice_bound len stop in
  firstn (Z.to_nat (hi - lo)) (skipn (Z.to_nat lo) l).

(** [d.get(key)] on what [json.load] returned. *)
Fixpoint dict_lookup (items : list (string * pyval)) (key : string) : pyval :=
  match items with
  | [] => PNone
  | (k, v) :: rest => if k =? key then v else dict_lookup rest key
  end.

Definition py_get (data : pyval) (key : string) : outcome pyval :=
  match data with
  | PDict items => Returned (dict_lookup items key)
  | _ => Raised AttributeError
  end.

(** ** [Path.glob("**/*checkpoint-bestperf*")] *)

Definition node_name (n : node) : string :=
  match n with File name => name | Dir name _ => name end.

Definition node_is_dir (n : node) : bool :=
  match n with File _ => false | Dir _ _ => true end.

(** A path found by the scan, with what [is_dir()] answers for it. *)
Record found : Type := Found { found_path : path; found_is_dir : bool }.

Definition checkpoint_marker : string := "checkpoint-bestperf".

(** The children of a directory whose names match
    [*checkpoint-bestperf*]. *)
Definition matching (prefix : path) (children : list node) : list found :=
  map (fun n => Found (prefix ++ [node_name n])%list (node_is_dir n))
      (filter (fun n => PyStr.contains checkpoint_marker (node_name n))
              children).

(** The matches below the entry whose own path is [here]: first the
    matching children of the directory, then what each child holds, in
    turn. *)
Fixpoint glob_in (here : path) (n : node) : list found :=
  match n with
  | File _ => []
  | Dir _ children =>
      (matching here children ++
       flat_map (fun c => glob_in (here ++ [node_name c]) c) children)%list
  end.

(** The scan from the directory of the module. *)
Definition glob (root : node) : list found := glob_in [] root.

(** [checkpoint_dirs[-1]] when the list is not empty and that entry is a
    directory (lines 316-318 of [__init__]). *)
Definition select_checkpoint (checkpoint_dirs : list found) : option path :=
  match checkpoint_dirs with
  | [] => None
  | d :: rest =>
      let final := last rest d in
      if found_is_dir final then Some (found_path final) else None
  end.

(** ** The session object *)

Record session : Type := Session {
  converse_mode : bool;
  accesstoken : string;
  device : string;
  RAGvecdb : path;
  model : Model;
  tokenizer : Tokenizer;
  pastfirst : bool;
  chat_history : list message
}.

Definition set_pastfirst (b : bool) (s : session) : session :=
  {| converse_mode := converse_mode s; accesstoken := accesstoken s;
     device := device s; RAGvecdb := RAGvecdb s; model := model s;
     tokenizer := tokenizer s; pastfirst := b;
     chat_history := chat_history s |}.

Definition set_chat_history (h : list message) (s : session) : session :=
  {| converse_mode := converse_mode s; accesstoken := accesstoken s;
     device := device s; RAGvecdb := RAGvecdb s; model := model s;
     tokenizer := tokenizer s; pastfirst := pastfirst s;
     chat_history := h |}.

(** [self.chat_history.append(m)] *)
Definition append_history (m : message) (s : session) : session :=
  set_chat_history (chat_history s ++ [m])%list s.

Definition nl : string := String (ascii_of_nat 10) EmptyString.

Definition RESPONSE : string :=
  "Thank you for providing the detailed context on Glayout strict syntax. I now have a foundational understanding of the commands. You can prompt me with specific requests to create circuits, and I will be able to write the Glayout strict syntax commands for you.".

Definition preamble : string :=
  "Glayout strictsyntax is a electronic circuit layout command language." ++ nl.

Definition context_header : string :=
  "The following is more specific context. This is only useful if it is related to the circuit the user is requesting below." ++ nl.

Definition conversion_instruction : string :=
  "Convert the following prompt to Glayout strictsyntax:" ++ nl.

(** A method runs on the session object and the world. *)
Definition on_world {A} (m : M world A) : M (session * world) A :=
  fun sw => let (w', r) := m (snd sw) in ((fst sw, w'), r).

Definition on_self (f : session -> session) : M (session * world) unit :=
  fun sw => ((f (fst sw), snd sw), Returned tt).

Definition self : M (session * world) session :=
  fun sw => (sw, Returned (fst sw)).

Section Program.

Variable O : Oracle.

(** *** [load_model_and_tokenizer]

    [qlora] is the constant [True] in the source, so the model is the
    quantized one and is never moved to [device]. *)
Definition load_model_and_tokenizer (model accesstoken device : string)
    (lora : bool) : M world (Model * Tokenizer) :=
  d <- lift_outcome (model_catalog model) ;;
  (if PyStr.lower (PyStr.strip model) =? "22b"
   then extern (EvInput "type anything to continue:") (input O)
   else ret tt) ;;;
  modify (fun w =>
    {| microsoft_model := PyStr.contains "microsoft" (modelname d);
       mistral_model := PyStr.contains "mistral" (modelname d);
       trace := trace w |}) ;;;
  extern (EvAutoModelFromPretrained (modelname d))
         (fun n => automodel_from_pretrained O n (modelname d)) ;;;
  extern (EvTokenizerFromPretrained (PStr (modelname d)))
         (fun n => tokenizer_from_pretrained O n (PStr (modelname d))) ;;;
  ret (if lora then PeftModel (modelname d) (target_modules d)
       else QuantizedModel (modelname d),
       MkTokenizer (PStr (modelname d)) (Some "[PAD]")).

(** *** [run_llm_normal]; [max_new_tokens] is [None] when the caller leaves
        it to its default. *)
Definition run_llm_normal (model : Model) (tokenizer : Tokenizer)
    (device prompt : string) (max_new_tokens : option Z) : M world string :=
  let max_new_tokens :=
    match max_new_tokens with Some n => n | None => 1000%Z end in
  inputs <- extern (EvApplyChatTemplate [Message user prompt])
                   (fun n => apply_chat_template O n [Message user prompt]) ;;
  outputs <- extern (EvModelGenerate model inputs max_new_tokens None)
                    (fun n => model_generate O n model inputs
                                max_new_tokens None) ;;
  first <- lift_outcome (index outputs 0) ;;
  extern (EvDecode first true) (fun _ => Returned (decode O first true)).

(** *** [run_full_SFT_training]

    [sft_train] is the function from line 243 on, once the model and the
    tokenizer are loaded: it reads the two module globals. *)
Definition sft_train (mt : Model * Tokenizer) : M world (Model * Tokenizer) :=
  extern EvLoadData (load_data O) ;;;
  w <- get ;;
  let output_dir :=
    ["glayout_llm_checkpoints" ++ (if microsoft_model w then "phi" else "mstrl")] in
  data_collator <-
    lift_outcome (select_data_collator (microsoft_model w) (mistral_model w)) ;;
  extern (EvTrain (fst mt) data_collator output_dir) (trainer_train O) ;;;
  extern (EvSavePretrained (fst mt) (output_dir ++ ["checkpoint-bestperf"])%list)
         (fun _ => Returned tt) ;;;
  ret mt.

Definition run_full_SFT_training (model accesstoken : string)
    : M world (Model * Tokenizer) :=
  let device := if cuda_is_available O then "cuda" else "cpu" in
  mt <- load_model_and_tokenizer model accesstoken device true ;;
  sft_train mt.

(** *** [GlayoutLLMSessionHandler.clear_history] *)
Definition clear_history (s : session) : session :=
  let s := set_chat_history [] s in
  if negb (converse_mode s) then
    let s := set_pastfirst false s in
    let s := append_history (Message user (get_glayout_context O)) s in
    append_history (Message assistant RESPONSE) s
  else set_pastfirst true s.

(** *** [GlayoutLLMSessionHandler.load_model_from_checkpoint] *)
Definition get_base_model_name_or_path (file_path : path) : M world pyval :=
  data <- extern (EvOpenJson file_path) (fun n => open_json O n file_path) ;;
  lift_outcome (py_get data "base_model_name_or_path").

Definition load_model_from_checkpoint (checkpoint_dir : path)
    : M world (Model * Tokenizer) :=
  extern (EvPeftFromPretrained checkpoint_dir)
         (fun n => peft_from_pretrained O n checkpoint_dir) ;;;
  model_id <-
    get_base_model_name_or_path (checkpoint_dir ++ ["adapter_config.json"])%list ;;
  extern (EvTokenizerFromPretrained model_id)
         (fun n => tokenizer_from_pretrained O n model_id) ;;;
  ret (PeftFromCheckpoint checkpoint_dir, MkTokenizer model_id (Some "[PAD]")).

(** *** [GlayoutLLMSessionHandler.__init__]

    [pastfirst] and [chat_history] are first assigned by the closing call
    of [clear_history], which overwrites the values given here. *)
Definition init (model accesstoken : string) (converse_mode : bool)
    : M world session :=
  let model := PyStr.lower (PyStr.strip model) in
  let device := if cuda_is_available O then "cuda" else "cpu" in
  checkpoint_dirs <- extern (EvGlob "**/*checkpoint-bestperf*")
                            (fun _ => Returned (glob (tree O))) ;;
  mt <- match select_checkpoint checkpoint_dirs with
        | Some checkpoint_dir => load_model_from_checkpoint checkpoint_dir
        | None => run_full_SFT_training model accesstoken
        end ;;
  extern (EvRAGdb ["rag_data"]) (fun _ => Returned tt) ;;;
  ret (clear_history
         {| converse_mode := converse_mode; accesstoken := accesstoken;
            device := device; RAGvecdb := ["rag_data"];
            model := fst mt; tokenizer := snd mt;
            pastfirst := false; chat_history := [] |}).

(** *** [GlayoutLLMSessionHandler.generate] *)

(** Lines 388-399: the prompt of the turn. *)
Definition build_prompt (user_input : string) : M (session * world) string :=
  s <- self ;;
  if negb (pastfirst s) then
    let full_prompt := preamble in
    results <- on_world (extern (EvRagQuery user_input 1)
                 (fun _ => Returned (rag_query O user_input 1))) ;;
    rag_content <- lift_outcome (index results 0) ;;
    let full_prompt :=
      match rag_content with
      | Some c => full_prompt ++ context_header ++ c ++ nl
      | None => full_prompt
      end in
    let full_prompt := full_prompt ++ conversion_instruction ++ user_input in
    on_self (set_pastfirst true) ;;;
    ret full_prompt
  else ret user_input.

(** Lines 400-415: the prompt is added to the session, rendered and fed
    to the model, and the answer is decoded and added. *)
Definition answer_turn (full_prompt : string) : M (session * world) string :=
  on_self (append_history (Message user full_prompt)) ;;;
  s <- self ;;
  inputs <- on_world (extern (EvApplyChatTemplate (chat_history s))
              (fun n => apply_chat_template O n (chat_history s))) ;;
  let pad := pad_token_id O (tokenizer s) in
  outputs <- on_world (extern (EvModelGenerate (model s) inputs 1024 pad)
               (fun n => model_generate O n (model s) inputs 1024%Z pad)) ;;
  first_out <- lift_outcome (index outputs 0) ;;
  first_in <- lift_outcome (index inputs 0) ;;
  let new_tokens := slice first_out (Z.of_nat (List.length first_in)) (-1) in
  response <- on_world (extern (EvDecode new_tokens false)
                (fun _ => Returned (decode O new_tokens false))) ;;
  on_self (append_history (Message assistant response)) ;;;
  ret response.

Definition generate (user_input : string) : M (session * world) string :=
  full_prompt <- build_prompt user_input ;;
  answer_turn full_prompt.

(** [__call__] *)
Definition call (user_input : string) : M (session * world) string :=
  generate user_input.

(** *** Use of a session: a caller issues calls one after the other,
        whatever each one returned or raised. *)
Inductive op : Type :=
| Generate (user_input : string)
| ClearHistory.

Definition is_generate (o : op) : bool :=
  match o with Generate _ => true | ClearHistory => false end.

Definition step (o : op) (sw : session * world) : session * world :=
  match o with
  | Generate user_input => fst (generate user_input sw)
  | ClearHistory => (clear_history (fst sw), snd sw)
  end.

Definition run (ops : list op) (sw : session * world) : session * world :=
  fold_left (fun sw o => step o sw) ops sw.

End Program.

(** ** Induction on directory trees *)

Section NodeInduction.

Variable P : node -> Prop.
Hypothesis P_file : forall name, P (File name).
Hypothesis P_dir :
  forall name children, Forall P children -> P (Dir name children).

Fixpoint node_induction (n : node) : P n :=
  match n with
  | File name => P_file name
  | Dir name children =>
      P_dir name
        ((fix all (l : list node) : Forall P l :=
            match l with
            | [] => Forall_nil P
            | c :: rest => Forall_cons c (node_induction c) (all rest)
            end) children)
  end.

End NodeInduction.

(** ** Notions the properties are stated with *)

(** The model sizes the catalog knows, once stripped and lowered. *)
Definition recognized (model : string) : bool :=
  (model =? "3b") || (model =? "7b") || (model =? "22b").

Definition share_no_name (l1 l2 : list string) : Prop :=
  forall m, In m l1 -> ~ In m l2.

Definition phi_collator : collator :=
  {| response_template := "<|assistant|>"; instruction_template := "<|user|>" |}.

Definition mistral_collator : collator :=
  {| response_template := "[/INST]"; instruction_template := "[INST]" |}.

(** [reaches root p n]: the entry [n] lies below [root], at the relative
    path [p]. *)
Inductive reaches : node -> path -> node -> Prop :=
| reaches_child name children c :
    In c children -> reaches (Dir name children) [node_name c] c
| reaches_deeper name children c p n :
    In c children -> reaches c p n ->
    reaches (Dir name children) (node_name c :: p) n.

(** What [__init__] does once the model and the tokenizer are there. *)
Definition finish_init (O : Oracle) (accesstoken : string)
    (converse_mode : bool) (r : world * outcome (Model * Tokenizer))
    : world * outcome session :=
  match r with
  | (w, Raised e) => (w, Raised e)
  | (w, Returned mt) =>
      (log (EvRAGdb ["rag_data"]) w,
       Returned (clear_history O
         {| converse_mode := converse_mode; accesstoken := accesstoken;
            device := if cuda_is_available O then "cuda" else "cpu";
            RAGvecdb := ["rag_data"];
            model := fst mt; tokenizer := snd mt;
            pastfirst := false; chat_history := [] |}))
  end.

(** The history a session starts with. *)
Definition seeded_history (O : Oracle) (converse_mode : bool) : list message :=
  if converse_mode then []
  else [Message user (get_glayout_context O); Message assistant RESPONSE].

(** The call [generate user_input] reaches [model.generate], and that call
    raises [e]. *)
Definition generation_raises (O : Oracle) (user_input : string)
    (s : session) (w : world) (e : exn) : Prop :=
  exists full_prompt s1 w1 inputs,
    build_prompt O user_input (s, w) = ((s1, w1), Returned full_prompt) /\
    apply_chat_template O (List.length (trace w1))
      (chat_history s1 ++ [Message user full_prompt])%list = Returned inputs /\
    model_generate O (S (List.length (trace w1))) (model s1) inputs 1024
      (pad_token_id O (tokenizer s1)) = Raised e.

Definition is_rag_query (ev : event) : bool :=
  match ev with EvRagQuery _ _ => true | _ => false end.

(** What the plain-completion helper, and what the session, may ask of the
    model and of the decoder. *)
Definition helper_event_ok (ev : event) : Prop :=
  match ev with
  | EvModelGenerate _ _ budget _ => budget = 1000%Z
  | EvDecode _ skip => skip = true
  | _ => True
  end.

Definition session_event_ok (ev : event) : Prop :=
  match ev with
  | EvModelGenerate _ _ budget _ => budget = 1024%Z
  | EvDecode _ skip => skip = false
  | _ => True
  end.

(** ** Concrete worlds *)

Module Scenario.

Definition empty_world : world := World false false [].

(** A checkpoint directory and, after it, an archive of it. *)
Definition tree_with_archive : node :=
  Dir "llm"
    [File "train_and_run.py";
     Dir "glayout_llm_checkpointsphi"
       [Dir "checkpoint-bestperf" [File "adapter_config.json"];
        File "checkpoint-bestperf.zip"]].

Definition tree_with_checkpoint : node :=
  Dir "llm"
    [File "train_and_run.py";
     Dir "glayout_llm_checkpointsphi"
       [Dir "checkpoint-bestperf" [File "adapter_config.json"]]].

Definition tree_without_checkpoint : node :=
  Dir "llm" [File "train_and_run.py"; Dir "rag_data" [File "inverter.md"]].

Definition good_config : pyval :=
  PDict [("peft_type", PStr "LORA");
         ("base_model_name_or_path", PStr "microsoft/Phi-3-mini-128k-instruct")].

(** A sidecar file without the [base_model_name_or_path] field. *)
Definition config_without_base : pyval :=
  PDict [("peft_type", PStr "LORA"); ("r", PInt 8)].

(** Every library call succeeds; the retriever knows one snippet, the
    model answers with the input followed by three tokens. *)
Definition oracle (t : node) (config : pyval)
    (query : string -> nat -> list (option string)) : Oracle :=
  {| tree := t;
     cuda_is_available := true;
     get_glayout_context := "Glayout context";
     peft_from_pretrained := fun _ _ => Returned tt;
     open_json := fun _ _ => Returned config;
     tokenizer_from_pretrained := fun _ id =>
       match id with
       | PStr _ => Returned tt
       | _ => Raised (LibraryError "AutoTokenizer.from_pretrained")
       end;
     automodel_from_pretrained := fun _ _ => Returned tt;
     input := fun _ => Returned tt;
     load_data := fun _ => Returned tt;
     trainer_train := fun _ => Returned tt;
     rag_query := query;
     apply_chat_template := fun _ msgs =>
       Returned [map (fun m => Z.of_nat (String.length (content m))) msgs];
     model_generate := fun _ _ inputs _ _ =>
       Returned (map (fun row => row ++ [7; 8; 2]%Z)%list inputs);
     decode := fun toks skip =>
       (if skip then "" else "<s>") ++
       String.concat " " (map (fun _ => "tok") toks);
     pad_token_id := fun _ => Some 32000%Z |}.

Definition one_snippet : string -> nat -> list (option string) :=
  fun _ _ => [Some "ctx-A"].

Definition no_snippet : string -> nat -> list (option string) :=
  fun _ _ => [None].

Definition empty_result : string -> nat -> list (option string) :=
  fun _ _ => [].

Definition good : Oracle := oracle tree_with_checkpoint good_config one_snippet.

(** As [o], but the tokenizer loader accepts any identifier. *)
Definition with_lenient_tokenizer (o : Oracle) : Oracle :=
  {| tree := tree o;
     cuda_is_available := cuda_is_available o;
     get_glayout_context := get_glayout_context o;
     peft_from_pretrained := peft_from_pretrained o;
     open_json := open_json o;
     tokenizer_from_pretrained := fun _ _ => Returned tt;
     automodel_from_pretrained := automodel_from_pretrained o;
     input := input o;
     load_data := load_data o;
     trainer_train := trainer_train o;
     rag_query := rag_query o;
     apply_chat_template := apply_chat_template o;
     model_generate := model_generate o;
     decode := decode o;
     pad_token_id := pad_token_id o |}.

(** As [o], but [model.generate] raises on the calls numbered in
    [failing]. *)
Definition with_failing_generate (failing : nat -> bool) (o : Oracle) : Oracle :=
  {| tree := tree o;
     cuda_is_available := cuda_is_available o;
     get_glayout_context := get_glayout_context o;
     peft_from_pretrained := peft_from_pretrained o;
     open_json := open_json o;
     tokenizer_from_pretrained := tokenizer_from_pretrained o;
     automodel_from_pretrained := automodel_from_pretrained o;
     input := input o;
     load_data := load_data o;
     trainer_train := trainer_train o;
     rag_query := rag_query o;
     apply_chat_template := apply_chat_template o;
     model_generate := fun n m inputs budget pad =>
       if failing n then Raised (LibraryError "model.generate")
       else model_generate o n m inputs budget pad;
     decode := decode o;
     pad_token_id := pad_token_id o |}.

(** A session as [__init__] leaves it. *)
Definition fresh (converse_mode : bool) : session :=
  clear_history good
    {| converse_mode := converse_mode; accesstoken := "hf_token";
       device := "cuda"; RAGvecdb := ["rag_data"];
       model := PeftFromCheckpoint
                  ["glayout_llm_checkpointsphi"; "checkpoint-bestperf"];
       tokenizer := MkTokenizer (PStr "microsoft/Phi-3-mini-128k-instruct")
                                (Some "[PAD]");
       pastfirst := false; chat_history := [] |}.

End Scenario.


(** ** Further notions *)

(** A string of white space only. *)
Fixpoint all_space (s : string) : bool :=
  match s with
  | EmptyString => true
  | String c t => PyStr.isspace c && all_space t
  end.

(** A string that does not start with white space. *)
Definition starts_clean (s : string) : Prop :=
  match s with
  | EmptyString => True
  | String c _ => PyStr.isspace c = false
  end.

Definition is_user (m : message) : bool :=
  match msg_role m with user => true | assistant => false end.

(** The contents of the user messages of a history, in order. *)
Definition user_contents (h : list message) : list string :=
  map content (filter is_user h).

(** A history made of user messages each followed by its answer. *)
Fixpoint alternating (h : list message) : bool :=
  match h with
  | [] => true
  | m1 :: m2 :: rest => is_user m1 && negb (is_user m2) && alternating rest
  | _ => false
  end.

(** The calls a turn of the session may make. *)
Definition session_call (ev : event) : bool :=
  match ev with
  | EvRagQuery _ _ | EvApplyChatTemplate _ | EvModelGenerate _ _ _ _
  | EvDecode _ _ => true
  | _ => false
  end.

Definition inputs_of (ops : list op) : list string :=
  flat_map (fun o => match o with
                     | Generate u => [u]
                     | ClearHistory => []
                     end) ops.

(** The collator and the output directory that go with a model name. *)
Definition collator_of (d : descriptor) : collator :=
  if PyStr.contains "microsoft" (modelname d) then phi_collator
  else mistral_collator.

Definition output_dir_of (d : descriptor) : path :=
  if PyStr.contains "microsoft" (modelname d)
  then ["glayout_llm_checkpointsphi"] else ["glayout_llm_checkpointsmstrl"].

(** What one call of [generate] may change. *)
Record step_effect (u : string) (s : session) (w : world)
    (s' : session) (w' : world) : Prop := {
  eff_globals : microsoft_model w' = microsoft_model w /\
                mistral_model w' = mistral_model w;
  eff_fixed : converse_mode s' = converse_mode s /\ model s' = model s /\
              tokenizer s' = tokenizer s;
  eff_flag : pastfirst s = true -> pastfirst s' = true;
  eff_trace : exists evs, trace w' = (trace w ++ evs)%list /\
                          forallb session_call evs = true /\
                          (pastfirst s = true -> existsb is_rag_query evs = false);
  eff_history : exists h, chat_history s' = (chat_history s ++ h)%list /\
                          (pastfirst s = true ->
                           user_contents h = [u])
}.

Definition is_dict (v : pyval) : bool :=
  match v with PDict _ => true | _ => false end.

(** * Properties *)

(** ** The catalog *)

(** C4: a model size that is "3b", "7b" or "22b" once stripped and lowered
    gets a descriptor with at least one target module, any other size raises
    the ValueError of the catalog; the list of the "3b" entry differs in
    length from the lists of the two other entries and shares no name with
    them. *)
Theorem model_catalog_entries (key : string) :
  (if recognized (PyStr.lower (PyStr.strip key))
   then exists d, model_catalog key = Returned d /\ target_modules d <> []
   else model_catalog key = Raised invalid_model_key)
  /\ exists d3 d7 d22,
       model_catalog "3b" = Returned d3 /\
       model_catalog "7b" = Returned d7 /\
       model_catalog "22b" = Returned d22 /\
       List.length (target_modules d3) <> List.length (target_modules d7) /\
       List.length (target_modules d3) <> List.length (target_modules d22) /\
       share_no_name (target_modules d3) (target_modules d7) /\
       share_no_name (target_modules d3) (target_modules d22).
Proof.
  split.
  - unfold recognized, model_catalog.
    destruct (PyStr.lower (PyStr.strip key) =? "3b");
      [simpl; eexists; split; [reflexivity | discriminate] |].
    destruct (PyStr.lower (PyStr.strip key) =? "7b");
      [simpl; eexists; split; [reflexivity | discriminate] |].
    destruct (PyStr.lower (PyStr.strip key) =? "22b");
      [simpl; eexists; split; [reflexivity | discriminate] |].
    reflexivity.
  - do 3 eexists.
    repeat (split; [reflexivity |]).
    cbn [target_modules List.length].
    repeat split; try discriminate;
      intros m [<- | []] [E | [E | [E | []]]]; discriminate E.
Qed.

(** The two other entries carry the same list. *)
Lemma model_catalog_7b_22b_same_targets :
  exists d7 d22,
    model_catalog " 7B" = Returned d7 /\ model_catalog "22b " = Returned d22 /\
    target_modules d7 = target_modules d22.
Proof. do 2 eexists. repeat split. Qed.

(** ** The monad and the trace *)

Lemma trace_log ev w : trace (log ev w) = (trace w ++ [ev])%list.
Proof. reflexivity. Qed.

Lemma length_trace_log ev w :
  List.length (trace (log ev w)) = S (List.length (trace w)).
Proof. rewrite trace_log, length_app. simpl. lia. Qed.

Lemma extern_run A ev (answer : nat -> outcome A) w :
  extern ev answer w = (log ev w, answer (List.length (trace w))).
Proof. reflexivity. Qed.

Lemma bind_run S A B (m : M S A) (k : A -> M S B) s s' r :
  m s = (s', r) ->
  bind m k s = match r with
               | Returned a => k a s'
               | Raised e => (s', Raised e)
               end.
Proof. unfold bind. intros ->. reflexivity. Qed.

Lemma on_world_extern A ev (answer : nat -> outcome A) s w :
  on_world (extern ev answer) (s, w) =
  ((s, log ev w), answer (List.length (trace w))).
Proof. reflexivity. Qed.

(** ** The data collator *)

Section Training.

Variable O : Oracle.

(** C5: once the training data is loaded, [run_full_SFT_training] builds
    its trainer with the collator of the family the globals name: the
    "<|user|>"/"<|assistant|>" pair when [microsoft_model] is set, the
    "[INST]"/"[/INST]" pair when only [mistral_model] is set; when neither
    is set it raises the ValueError of line 278 and no trainer is built. *)
Theorem sft_train_selects_collator (mt : Model * Tokenizer) (w : world) :
  load_data O (List.length (trace w)) = Returned tt ->
  (microsoft_model w = true ->
   exists evs,
     trace (fst (sft_train O mt w)) =
     (trace w ++ [EvLoadData;
                  EvTrain (fst mt) phi_collator ["glayout_llm_checkpointsphi"]]
              ++ evs)%list)
  /\ (microsoft_model w = false -> mistral_model w = true ->
      exists evs,
        trace (fst (sft_train O mt w)) =
        (trace w ++ [EvLoadData;
                     EvTrain (fst mt) mistral_collator
                             ["glayout_llm_checkpointsmstrl"]]
                 ++ evs)%list)
  /\ (microsoft_model w = false -> mistral_model w = false ->
      sft_train O mt w = (log EvLoadData w, Raised unsupported_family))
  /\ phi_collator <> mistral_collator.
Proof.
  intros Hdata.
  assert (Hstart : forall k : unit -> M world (Model * Tokenizer),
             bind (extern EvLoadData (load_data O)) k w = k tt (log EvLoadData w)).
  { intros k. unfold bind. rewrite extern_run, Hdata. reflexivity. }
  unfold sft_train. rewrite Hstart.
  repeat split.
  - intros Hms. unfold bind, get, lift_outcome, select_data_collator.
    cbn [microsoft_model mistral_model log]. rewrite Hms.
    rewrite extern_run.
    destruct (trainer_train O _); simpl.
    + exists [EvSavePretrained (fst mt)
                ["glayout_llm_checkpointsphi"; "checkpoint-bestperf"]].
      rewrite <- ?app_assoc. reflexivity.
    + exists []. rewrite <- ?app_assoc. reflexivity.
  - intros Hms Hmi. unfold bind, get, lift_outcome, select_data_collator.
    cbn [microsoft_model mistral_model log]. rewrite Hms, Hmi.
    rewrite extern_run.
    destruct (trainer_train O _); simpl.
    + exists [EvSavePretrained (fst mt)
                ["glayout_llm_checkpointsmstrl"; "checkpoint-bestperf"]].
      rewrite <- ?app_assoc. reflexivity.
    + exists []. rewrite <- ?app_assoc. reflexivity.
  - intros Hms Hmi. unfold bind, get, lift_outcome, select_data_collator.
    cbn [microsoft_model mistral_model log]. rewrite Hms, Hmi. reflexivity.
  - discriminate.
Qed.

(** When [load_model_and_tokenizer] returns, exactly one of the two globals
    is set: the branch of line 278 is not reached from
    [run_full_SFT_training]. *)
Lemma load_model_and_tokenizer_family model accesstoken device lora w w' mt :
  load_model_and_tokenizer O model accesstoken device lora w = (w', Returned mt) ->
  microsoft_model w' = negb (mistral_model w').
Proof.
  unfold load_model_and_tokenizer, model_catalog.
  set (key := PyStr.lower (PyStr.strip model)).
  unfold bind, lift_outcome, modify, ret.
  destruct (key =? "3b"), (key =? "7b"), (key =? "22b");
    cbn -[PyStr.contains];
    repeat match goal with
           | |- context [extern ?ev ?a ?w0] => rewrite (extern_run ev a w0)
           | |- context [match ?o with Returned _ => _ | Raised _ => _ end] =>
               destruct o; cbn -[PyStr.contains]
           end;
    intros E; inversion E; subst; reflexivity.
Qed.

End Training.

(** The hypothesis of the theorem on the collator holds in a world where
    the globals name the Mistral family. *)
Lemma sft_train_selects_collator_witness :
  exists evs,
    trace (fst (sft_train Scenario.good
                  (PeftModel "mistralai/Mistral-7B-Instruct-v0.3"
                             ["q_proj"; "k_proj"; "v_proj"],
                   MkTokenizer (PStr "mistralai/Mistral-7B-Instruct-v0.3")
                               (Some "[PAD]"))
                  (World false true []))) =
    ([] ++ [EvLoadData;
            EvTrain (PeftModel "mistralai/Mistral-7B-Instruct-v0.3"
                               ["q_proj"; "k_proj"; "v_proj"])
                    mistral_collator ["glayout_llm_checkpointsmstrl"]]
        ++ evs)%list.
Proof.
  apply (sft_train_selects_collator Scenario.good
           (PeftModel "mistralai/Mistral-7B-Instruct-v0.3"
                      ["q_proj"; "k_proj"; "v_proj"],
            MkTokenizer (PStr "mistralai/Mistral-7B-Instruct-v0.3")
                        (Some "[PAD]"))
           (World false true []) eq_refl); reflexivity.
Defined.

(** ** Checkpoint discovery *)

Lemma in_matching here children f :
  In f (matching here children) <->
  exists c, In c children /\
            PyStr.contains checkpoint_marker (node_name c) = true /\
            f = Found (here ++ [node_name c])%list (node_is_dir c).
Proof.
  unfold matching. rewrite in_map_iff. split.
  - intros (c & <- & Hc). apply filter_In in Hc. destruct Hc. eauto.
  - intros (c & Hin & Hm & ->). exists c. split; [reflexivity |].
    apply filter_In. auto.
Qed.

(** Every entry below the root whose name holds the marker is found, at
    any depth. *)
Lemma glob_in_complete root p n :
  reaches root p n ->
  PyStr.contains checkpoint_marker (node_name n) = true ->
  forall here,
    In (Found (here ++ p)%list (node_is_dir n)) (glob_in here root).
Proof.
  induction 1 as [name children c Hc | name children c p n Hc Hr IH];
    intros Hm here; cbn [glob_in]; apply in_or_app.
  - left. apply in_matching. eauto.
  - right. apply in_flat_map. exists c. split; [assumption |].
    specialize (IH Hm (here ++ [node_name c])%list).
    rewrite <- app_assoc in IH. exact IH.
Qed.

(** Nothing else is found. *)
Lemma glob_in_sound root :
  forall here f,
    In f (glob_in here root) ->
    exists p n,
      reaches root p n /\
      PyStr.contains checkpoint_marker (node_name n) = true /\
      f = Found (here ++ p)%list (node_is_dir n).
Proof.
  induction root as [name | name children IH] using node_induction;
    intros here f Hf; cbn [glob_in] in Hf; [contradiction |].
  apply in_app_or in Hf. destruct Hf as [Hf | Hf].
  - apply in_matching in Hf. destruct Hf as (c & Hc & Hm & ->).
    exists [node_name c], c. split; [constructor; assumption | auto].
  - apply in_flat_map in Hf. destruct Hf as (c & Hc & Hf).
    rewrite Forall_forall in IH.
    destruct (IH c Hc _ _ Hf) as (p & n & Hr & Hm & ->).
    exists (node_name c :: p), n. split; [| split; [assumption |]].
    + econstructor 2; eassumption.
    + rewrite <- app_assoc. reflexivity.
Qed.

(** [__init__] after the scan: the loader the selection names, then the
    rest of the constructor. *)
Lemma init_run (O : Oracle) (model accesstoken : string)
    (converse_mode : bool) (w : world) :
  init O model accesstoken converse_mode w =
  finish_init O accesstoken converse_mode
    (let w1 := log (EvGlob "**/*checkpoint-bestperf*") w in
     match select_checkpoint (glob (tree O)) with
     | Some checkpoint_dir => load_model_from_checkpoint O checkpoint_dir w1
     | None =>
         run_full_SFT_training O (PyStr.lower (PyStr.strip model))
                               accesstoken w1
     end).
Proof.
  unfold init, bind at 1. rewrite extern_run. cbv zeta.
  destruct (select_checkpoint (glob (tree O))) as [dir |]; unfold bind;
    match goal with
    | |- context [match ?m with (_, _) => _ end] =>
        destruct m as [w' [mt | e]]
    end; reflexivity.
Qed.

(** C8, as the code has it: the scan finds exactly the entries below the
    root whose name holds the marker; with no match the model is trained;
    with matches, the last one is loaded when it is a directory, and
    otherwise no checkpoint is selected and the model is trained. *)
Theorem checkpoint_discovery (O : Oracle) (model accesstoken : string)
    (converse_mode : bool) (w : world) :
  (forall f, In f (glob (tree O)) <->
             exists p n, reaches (tree O) p n /\
                         PyStr.contains checkpoint_marker (node_name n) = true /\
                         f = Found p (node_is_dir n))
  /\ init O model accesstoken converse_mode w =
     finish_init O accesstoken converse_mode
       (let w1 := log (EvGlob "**/*checkpoint-bestperf*") w in
        match glob (tree O) with
        | [] =>
            run_full_SFT_training O (PyStr.lower (PyStr.strip model))
                                  accesstoken w1
        | d :: rest =>
            if found_is_dir (last rest d)
            then load_model_from_checkpoint O (found_path (last rest d)) w1
            else run_full_SFT_training O (PyStr.lower (PyStr.strip model))
                                       accesstoken w1
        end).
Proof.
  split.
  - intros f. unfold glob. split.
    + intros Hf. apply glob_in_sound in Hf. exact Hf.
    + intros (p & n & Hr & Hm & ->).
      apply (glob_in_complete Hr Hm []).
  - rewrite init_run. unfold select_checkpoint.
    destruct (glob (tree O)) as [| d rest]; [reflexivity |].
    destruct (found_is_dir (last rest d)); reflexivity.
Qed.

(** C8, as the spec has it, fails: in this tree the scan ends on an archive
    next to the checkpoint directory, and nothing is selected. *)
Lemma last_match_not_always_selected :
  ~ (forall root d rest,
       glob root = d :: rest ->
       select_checkpoint (glob root) = Some (found_path (last rest d))).
Proof.
  intros H.
  specialize (H Scenario.tree_with_archive _ _ eq_refl).
  discriminate H.
Qed.

(** ** Loading from a checkpoint *)

Lemma dict_lookup_absent items key :
  (forall v, ~ In (key, v) items) -> dict_lookup items key = PNone.
Proof.
  induction items as [| [k v] rest IH]; intros Habs; [reflexivity |].
  cbn [dict_lookup]. destruct (String.eqb_spec k key) as [-> | _].
  - exfalso. apply (Habs v). left. reflexivity.
  - apply IH. intros v' Hin. apply (Habs v'). right. exact Hin.
Qed.

(** C2, as the code has it: when [adapter_config.json] holds an object
    without the [base_model_name_or_path] field, the helper returns [None]
    and, the adapter weights being loaded already, the tokenizer loader is
    called with [None]; the load returns or raises as that call does. *)
Theorem load_model_from_checkpoint_without_base_model
    (O : Oracle) (checkpoint_dir : path) (w : world)
    (items : list (string * pyval)) :
  let n := List.length (trace w) in
  let sidecar := (checkpoint_dir ++ ["adapter_config.json"])%list in
  peft_from_pretrained O n checkpoint_dir = Returned tt ->
  open_json O (S n) sidecar = Returned (PDict items) ->
  (forall v, ~ In ("base_model_name_or_path", v) items) ->
  load_model_from_checkpoint O checkpoint_dir w =
  (log (EvTokenizerFromPretrained PNone)
     (log (EvOpenJson sidecar) (log (EvPeftFromPretrained checkpoint_dir) w)),
   match tokenizer_from_pretrained O (S (S n)) PNone with
   | Returned _ =>
       Returned (PeftFromCheckpoint checkpoint_dir,
                 MkTokenizer PNone (Some "[PAD]"))
   | Raised e => Raised e
   end).
Proof.
  intros n sidecar Hpeft Hjson Habs.
  unfold load_model_from_checkpoint, get_base_model_name_or_path, bind.
  rewrite extern_run. fold n. rewrite Hpeft.
  rewrite extern_run, length_trace_log. fold n. fold sidecar. rewrite Hjson.
  unfold lift_outcome, py_get. rewrite (@dict_lookup_absent items _ Habs).
  rewrite extern_run, !length_trace_log. fold n.
  destruct (tokenizer_from_pretrained O (S (S n)) PNone); reflexivity.
Qed.

Lemma load_model_from_checkpoint_without_base_model_witness :
  load_model_from_checkpoint
    (Scenario.oracle Scenario.tree_with_checkpoint
                     Scenario.config_without_base Scenario.one_snippet)
    ["glayout_llm_checkpointsphi"; "checkpoint-bestperf"]
    Scenario.empty_world =
  (World false false
     [EvPeftFromPretrained ["glayout_llm_checkpointsphi"; "checkpoint-bestperf"];
      EvOpenJson ["glayout_llm_checkpointsphi"; "checkpoint-bestperf";
                  "adapter_config.json"];
      EvTokenizerFromPretrained PNone],
   Raised (LibraryError "AutoTokenizer.from_pretrained")).
Proof.
  apply (@load_model_from_checkpoint_without_base_model
           (Scenario.oracle Scenario.tree_with_checkpoint
                            Scenario.config_without_base Scenario.one_snippet)
           ["glayout_llm_checkpointsphi"; "checkpoint-bestperf"]
           Scenario.empty_world
           [("peft_type", PStr "LORA"); ("r", PInt 8)]
           eq_refl eq_refl).
  intros v [H | [H | []]]; discriminate H.
Defined.

(** C2, as the spec has it, fails: with such a sidecar file the tokenizer
    loader is called with [None], and where that loader accepts it the load
    returns a tokenizer built from [None]. *)
Lemma missing_base_model_is_passed_on :
  let dir := ["glayout_llm_checkpointsphi"; "checkpoint-bestperf"] in
  let strict := Scenario.oracle Scenario.tree_with_checkpoint
                  Scenario.config_without_base Scenario.one_snippet in
  In (EvTokenizerFromPretrained PNone)
     (trace (fst (load_model_from_checkpoint strict dir Scenario.empty_world)))
  /\ snd (load_model_from_checkpoint (Scenario.with_lenient_tokenizer strict)
            dir Scenario.empty_world) =
     Returned (PeftFromCheckpoint dir, MkTokenizer PNone (Some "[PAD]")).
Proof.
  split.
  - vm_compute. right. right. left. reflexivity.
  - reflexivity.
Qed.

(** With the field present, the tokenizer is built from the recorded
    identifier. *)
Lemma load_model_from_checkpoint_base_model :
  snd (load_model_from_checkpoint Scenario.good
         ["glayout_llm_checkpointsphi"; "checkpoint-bestperf"]
         Scenario.empty_world) =
  Returned (PeftFromCheckpoint
              ["glayout_llm_checkpointsphi"; "checkpoint-bestperf"],
            MkTokenizer (PStr "microsoft/Phi-3-mini-128k-instruct")
                        (Some "[PAD]")).
Proof. reflexivity. Qed.

(** ** Slices *)

Lemma slice_drops_prefix_and_last A (l : list A) (m : nat) :
  slice l (Z.of_nat m) (-1) = skipn m (removelast l).
Proof.
  unfold slice, slice_bound.
  set (len := List.length l).
  rewrite removelast_firstn_len. fold len.
  rewrite skipn_firstn_comm.
  assert (Hneg : (Z.of_nat m <? 0)%Z = false) by (apply Z.ltb_ge; lia).
  rewrite Hneg. cbn [Z.ltb Z.compare].
  destruct (Nat.le_gt_cases len m) as [Hge | Hlt].
  - replace (Z.to_nat (Z.max 0 (Z.min (Z.of_nat len) (Z.of_nat m))))
      with len by lia.
    rewrite (skipn_all2 l (n := len)) by (subst len; lia).
    rewrite (skipn_all2 l (n := m)) by (fold len; lia).
    rewrite !firstn_nil. reflexivity.
  - replace (Z.to_nat (Z.max 0 (Z.min (Z.of_nat len) (Z.of_nat m))))
      with m by lia.
    f_equal. lia.
Qed.

(** ** One turn of the session *)

Section Session.

Variable O : Oracle.

Lemma build_prompt_past u s w :
  pastfirst s = true -> build_prompt O u (s, w) = ((s, w), Returned u).
Proof.
  intros H. unfold build_prompt, bind, self. cbn [fst negb].
  rewrite H. reflexivity.
Qed.

Lemma build_prompt_first u s w :
  pastfirst s = false ->
  build_prompt O u (s, w) =
  match rag_query O u 1 with
  | [] => ((s, log (EvRagQuery u 1) w), Raised IndexError)
  | r :: _ =>
      ((set_pastfirst true s, log (EvRagQuery u 1) w),
       Returned (match r with
                 | Some c => preamble ++ context_header ++ c ++ nl
                 | None => preamble
                 end ++ conversion_instruction ++ u))
  end.
Proof.
  intros H. unfold build_prompt, bind, self. cbn [fst negb].
  rewrite H. cbn [negb]. rewrite on_world_extern.
  unfold lift_outcome, index.
  destruct (rag_query O u 1) as [| r rest]; reflexivity.
Qed.

Lemma answer_turn_run p s w :
  answer_turn O p (s, w) =
  let s1 := append_history (Message user p) s in
  let n := List.length (trace w) in
  let w1 := log (EvApplyChatTemplate (chat_history s1)) w in
  match apply_chat_template O n (chat_history s1) with
  | Raised e => ((s1, w1), Raised e)
  | Returned inputs =>
      let pad := pad_token_id O (tokenizer s) in
      let w2 := log (EvModelGenerate (model s) inputs 1024 pad) w1 in
      match model_generate O (S n) (model s) inputs 1024 pad with
      | Raised e => ((s1, w2), Raised e)
      | Returned outputs =>
          match nth_error outputs 0, nth_error inputs 0 with
          | Some first_out, Some first_in =>
              let new_tokens :=
                slice first_out (Z.of_nat (List.length first_in)) (-1) in
              let response := decode O new_tokens false in
              ((append_history (Message assistant response) s1,
                log (EvDecode new_tokens false) w2),
               Returned response)
          | _, _ => ((s1, w2), Raised IndexError)
          end
      end
  end.
Proof.
  unfold answer_turn, bind, on_self, self.
  cbn [fst snd]. rewrite on_world_extern.
  destruct (apply_chat_template O _ _) as [inputs | e]; [| reflexivity].
  cbv zeta. rewrite on_world_extern, length_trace_log.
  cbn [model tokenizer append_history set_chat_history].
  destruct (model_generate O _ _ _ _ _) as [outputs | e]; [| reflexivity].
  unfold lift_outcome, index.
  destruct (nth_error outputs 0) as [first_out |]; [| reflexivity].
  destruct (nth_error inputs 0) as [first_in |]; reflexivity.
Qed.

Lemma generate_run u s w :
  generate O u (s, w) =
  match build_prompt O u (s, w) with
  | (sw, Returned p) => answer_turn O p sw
  | (sw, Raised e) => (sw, Raised e)
  end.
Proof. reflexivity. Qed.

End Session.

(** ** Properties of the session *)

Section SessionProperties.

Variable O : Oracle.

Lemma generation_raises_run u s w e :
  generation_raises O u s w e ->
  exists p s1 w1 inputs,
    build_prompt O u (s, w) = ((s1, w1), Returned p) /\
    chat_history s1 = chat_history s /\
    generate O u (s, w) =
    ((append_history (Message user p) s1,
      log (EvModelGenerate (model s1) inputs 1024
             (pad_token_id O (tokenizer s1)))
        (log (EvApplyChatTemplate (chat_history s1 ++ [Message user p])%list)
             w1)),
     Raised e).
Proof.
  intros (p & s1 & w1 & inputs & Hp & Hin & Hgen).
  exists p, s1, w1, inputs. split; [exact Hp |]. split.
  - destruct (pastfirst s) eqn:Hpf.
    + rewrite build_prompt_past in Hp by exact Hpf. inversion Hp. reflexivity.
    + rewrite build_prompt_first in Hp by exact Hpf.
      destruct (rag_query O u 1); inversion Hp. reflexivity.
  - rewrite generate_run, Hp, answer_turn_run.
    cbv zeta. cbn [chat_history append_history set_chat_history].
    rewrite Hin, Hgen. reflexivity.
Qed.

(** C1, as the code has it: a call of [generate] that returns leaves the
    history two messages longer, the user message and then the answer; a
    call in which [model.generate] raises leaves it one message longer, the
    user message staying in the history. *)
Theorem generate_history_growth (u : string) (s : session) (w : world) :
  (forall response,
     snd (generate O u (s, w)) = Returned response ->
     exists p,
       chat_history (fst (fst (generate O u (s, w)))) =
       (chat_history s ++ [Message user p; Message assistant response])%list /\
       List.length (chat_history (fst (fst (generate O u (s, w))))) =
       List.length (chat_history s) + 2)
  /\ (forall e,
        generation_raises O u s w e ->
        snd (generate O u (s, w)) = Raised e /\
        exists p,
          chat_history (fst (fst (generate O u (s, w)))) =
          (chat_history s ++ [Message user p])%list /\
          List.length (chat_history (fst (fst (generate O u (s, w))))) =
          List.length (chat_history s) + 1).
Proof.
  split.
  - intros response. rewrite generate_run.
    assert (Hh : forall p s1 w1,
               build_prompt O u (s, w) = ((s1, w1), Returned p) ->
               chat_history s1 = chat_history s).
    { intros p s1 w1 Hp. destruct (pastfirst s) eqn:Hpf.
      - rewrite build_prompt_past in Hp by exact Hpf. inversion Hp. reflexivity.
      - rewrite build_prompt_first in Hp by exact Hpf.
        destruct (rag_query O u 1); inversion Hp. reflexivity. }
    destruct (build_prompt O u (s, w)) as [[s1 w1] [p | e]] eqn:Hp;
      [| discriminate].
    specialize (Hh p s1 w1 eq_refl).
    rewrite answer_turn_run. cbv zeta.
    destruct (apply_chat_template O _ _) as [inputs | e]; [| discriminate].
    destruct (model_generate O _ _ _ _ _) as [outputs | e]; [| discriminate].
    destruct (nth_error outputs 0) as [first_out |]; [| discriminate].
    destruct (nth_error inputs 0) as [first_in |]; [| discriminate].
    cbn [fst snd chat_history append_history set_chat_history].
    intros E. inversion E as [E']. exists p. rewrite Hh. split.
    + rewrite <- app_assoc. reflexivity.
    + rewrite !length_app. cbn [List.length]. lia.
  - intros e Hraise.
    destruct (generation_raises_run Hraise) as (p & s1 & w1 & inputs & _ & Hh & ->).
    split; [reflexivity |]. exists p.
    cbn [fst snd chat_history append_history set_chat_history].
    rewrite Hh. split; [reflexivity |].
    rewrite length_app. reflexivity.
Qed.

End SessionProperties.

(** In this world every call of [model.generate] raises. *)
Lemma generation_raises_scenario :
  generation_raises
    (Scenario.with_failing_generate (fun _ => true) Scenario.good)
    "inverter" (Scenario.fresh false) Scenario.empty_world
    (LibraryError "model.generate").
Proof. do 4 eexists. split; [cbv; reflexivity | split; cbv; reflexivity]. Qed.

Lemma generate_history_growth_witness :
  (exists p,
     chat_history
       (fst (fst (generate Scenario.good "inverter"
                    (Scenario.fresh false, Scenario.empty_world)))) =
     (chat_history (Scenario.fresh false) ++
      [Message user p; Message assistant "<s>tok tok"])%list /\
     List.length
       (chat_history
          (fst (fst (generate Scenario.good "inverter"
                       (Scenario.fresh false, Scenario.empty_world))))) =
     List.length (chat_history (Scenario.fresh false)) + 2)
  /\ snd (generate
            (Scenario.with_failing_generate (fun _ => true) Scenario.good)
            "inverter" (Scenario.fresh false, Scenario.empty_world)) =
     Raised (LibraryError "model.generate").
Proof.
  split.
  - apply (generate_history_growth Scenario.good "inverter"
             (Scenario.fresh false) Scenario.empty_world).
    reflexivity.
  - apply (generate_history_growth
             (Scenario.with_failing_generate (fun _ => true) Scenario.good)
             "inverter" (Scenario.fresh false) Scenario.empty_world).
    do 4 eexists. split; [cbv; reflexivity | split; cbv; reflexivity].
Defined.

(** C1, as the spec has it, fails: [model.generate] raises, and the history
    is one message longer than before the call. *)
Lemma failed_generation_changes_history :
  exists O u s w e,
    generation_raises O u s w e /\
    List.length (chat_history (fst (fst (generate O u (s, w))))) <>
    List.length (chat_history s).
Proof.
  exists (Scenario.with_failing_generate (fun _ => true) Scenario.good),
    "inverter", (Scenario.fresh false), Scenario.empty_world,
    (LibraryError "model.generate").
  split; [| discriminate].
  do 4 eexists. split; [cbv; reflexivity | split; cbv; reflexivity].
Qed.

Section Flag.

Variable O : Oracle.

Ltac turn_cases :=
  rewrite answer_turn_run; cbv zeta;
  destruct (apply_chat_template O _ _) as [?inputs | ?e];
  [destruct (model_generate O _ _ _ _ _) as [?outputs | ?e];
   [destruct (nth_error _ 0) as [?first_out |];
    [destruct (nth_error _ 0) as [?first_in |] | ] | ] | ];
  cbn [fst snd converse_mode pastfirst model tokenizer chat_history
       append_history set_chat_history set_pastfirst].

Lemma answer_turn_keeps p s w :
  let s' := fst (fst (answer_turn O p (s, w))) in
  converse_mode s' = converse_mode s /\ pastfirst s' = pastfirst s /\
  model s' = model s /\ tokenizer s' = tokenizer s.
Proof. turn_cases; repeat split. Qed.

Lemma generate_keeps u s w :
  let s' := fst (fst (generate O u (s, w))) in
  converse_mode s' = converse_mode s /\ model s' = model s /\
  tokenizer s' = tokenizer s.
Proof.
  rewrite generate_run. destruct (pastfirst s) eqn:Hpf.
  - rewrite build_prompt_past by exact Hpf.
    destruct (answer_turn_keeps u s w) as (? & _ & ? & ?). auto.
  - rewrite build_prompt_first by exact Hpf.
    destruct (rag_query O u 1) as [| r rest]; [repeat split |].
    match goal with
    | |- context [answer_turn O ?p (?s1, ?w1)] =>
        destruct (answer_turn_keeps p s1 w1) as (? & _ & ? & ?)
    end.
    auto.
Qed.

Lemma generate_keeps_pastfirst u s w :
  pastfirst s = true -> pastfirst (fst (fst (generate O u (s, w)))) = true.
Proof.
  intros Hpf. rewrite generate_run, build_prompt_past by exact Hpf.
  destruct (answer_turn_keeps u s w) as (_ & -> & _). exact Hpf.
Qed.

Lemma clear_history_flag s :
  pastfirst (clear_history O s) = converse_mode s /\
  converse_mode (clear_history O s) = converse_mode s.
Proof. unfold clear_history. destruct s as [[] ? ? ? ? ? ? ?]; split; reflexivity. Qed.

Lemma run_generate_keeps_pastfirst ops :
  forall s w,
    forallb is_generate ops = true -> pastfirst s = true ->
    pastfirst (fst (run O ops (s, w))) = true.
Proof.
  induction ops as [| o ops IH]; intros s w Hops Hpf; [exact Hpf |].
  cbn [forallb] in Hops. apply andb_prop in Hops. destruct Hops as [Ho Hops].
  destruct o as [u |]; [| discriminate Ho].
  cbn [run fold_left step].
  destruct (generate O u (s, w)) as [[s1 w1] r] eqn:E.
  apply (IH s1 w1 Hops).
  pose proof (@generate_keeps_pastfirst u s w Hpf) as H. rewrite E in H. exact H.
Qed.

Lemma run_converse_keeps_pastfirst ops :
  forall s w,
    converse_mode s = true -> pastfirst s = true ->
    pastfirst (fst (run O ops (s, w))) = true.
Proof.
  induction ops as [| o ops IH]; intros s w Hcm Hpf; [exact Hpf |].
  cbn [run fold_left]. destruct o as [u |]; cbn [step].
  - destruct (generate O u (s, w)) as [[s1 w1] r] eqn:E.
    pose proof (@generate_keeps_pastfirst u s w Hpf) as H.
    pose proof (generate_keeps u s w) as (Hc & _).
    rewrite E in H, Hc. cbn [fst] in H, Hc.
    apply (IH s1 w1); congruence.
  - cbn [fst snd]. destruct (clear_history_flag s) as [H1 H2].
    apply IH; congruence.
Qed.

Lemma init_returns model accesstoken cm w w' s0 :
  init O model accesstoken cm w = (w', Returned s0) ->
  exists mt,
    s0 = clear_history O
           {| converse_mode := cm; accesstoken := accesstoken;
              device := if cuda_is_available O then "cuda" else "cpu";
              RAGvecdb := ["rag_data"];
              model := fst mt; tokenizer := snd mt;
              pastfirst := false; chat_history := [] |}.
Proof.
  rewrite init_run. unfold finish_init.
  match goal with
  | |- context [match ?r with (_, _) => _ end] => destruct r as [w1 [mt | e]]
  end; intros E; inversion E. exists mt. reflexivity.
Qed.

(** C7: once [pastfirst] is true, no sequence of calls of [generate] makes
    it false, whether they return or raise; a step that takes it back to
    false is a call of [clear_history] on a session whose [converse_mode] is
    false; a session built with [converse_mode] true starts with the flag
    true and keeps it under every sequence of [generate] and
    [clear_history]. *)
Theorem pastfirst_monotonic (ops : list op) (s : session) (w : world) :
  (pastfirst s = true -> forallb is_generate ops = true ->
   pastfirst (fst (run O ops (s, w))) = true)
  /\ (forall o,
        pastfirst s = true -> pastfirst (fst (step O o (s, w))) = false ->
        o = ClearHistory /\ converse_mode s = false)
  /\ (forall model accesstoken w0 w1 s0,
        init O model accesstoken true w0 = (w1, Returned s0) ->
        converse_mode s0 = true /\ pastfirst s0 = true /\
        pastfirst (fst (run O ops (s0, w1))) = true).
Proof.
  split; [| split].
  - intros Hpf Hops. apply run_generate_keeps_pastfirst; assumption.
  - intros o Hpf Hstep. destruct o as [u |]; cbn [step fst] in Hstep.
    + rewrite generate_keeps_pastfirst in Hstep by exact Hpf.
      discriminate Hstep.
    + destruct (clear_history_flag s) as [Hflag _].
      split; [reflexivity | congruence].
  - intros model accesstoken w0 w1 s0 Hinit.
    apply init_returns in Hinit. destruct Hinit as [mt ->].
    split; [reflexivity |]. split; [reflexivity |].
    apply run_converse_keeps_pastfirst; reflexivity.
Qed.

End Flag.

Lemma pastfirst_monotonic_witness :
  pastfirst
    (fst (run (Scenario.with_failing_generate (fun n => Nat.eqb n 2) Scenario.good)
              [Generate "nand gate"; Generate "inverter"]
              (fst (generate
                      (Scenario.with_failing_generate (fun n => Nat.eqb n 2)
                                                      Scenario.good)
                      "inverter"
                      (Scenario.fresh false, Scenario.empty_world))))) = true.
Proof.
  destruct (generate
              (Scenario.with_failing_generate (fun n => Nat.eqb n 2) Scenario.good)
              "inverter" (Scenario.fresh false, Scenario.empty_world))
    as [[s1 w1] r] eqn:E.
  cbn [fst].
  apply (pastfirst_monotonic
           (Scenario.with_failing_generate (fun n => Nat.eqb n 2) Scenario.good)
           [Generate "nand gate"; Generate "inverter"] s1 w1).
  - vm_compute in E. inversion E. reflexivity.
  - reflexivity.
Defined.

Section Reset.

Variable O : Oracle.

(** C6: whatever the session went through, [clear_history] leaves the
    history a session starts with for its [converse_mode] (the context
    message and the fixed acknowledgment when it is false, nothing when it is
    true) and the flag equal to [converse_mode]; these are the history and
    the flag of every session [__init__] returns for that [converse_mode];
    the model, the tokenizer and the other attributes are kept, and no call
    leaves the module. *)
Theorem clear_history_reseeds (s : session) (w : world) :
  let s' := clear_history O s in
  chat_history s' = seeded_history O (converse_mode s)
  /\ pastfirst s' = converse_mode s
  /\ (model s' = model s /\ tokenizer s' = tokenizer s /\
      converse_mode s' = converse_mode s /\ accesstoken s' = accesstoken s /\
      device s' = device s /\ RAGvecdb s' = RAGvecdb s)
  /\ step O ClearHistory (s, w) = (s', w)
  /\ clear_history O s' = s'
  /\ (forall model accesstoken w0 w1 s0,
        init O model accesstoken (converse_mode s) w0 = (w1, Returned s0) ->
        chat_history s' = chat_history s0 /\ pastfirst s' = pastfirst s0).
Proof.
  cbv zeta. unfold clear_history, seeded_history.
  destruct s as [cm tok dev rag m t pf h].
  cbn [converse_mode set_chat_history].
  repeat split; try (destruct cm; reflexivity).
  all: match goal with
       | Hinit : init _ _ _ _ _ = _ |- _ =>
           apply init_returns in Hinit; destruct Hinit as [mt ->]
       end;
       destruct cm; reflexivity.
Qed.

End Reset.

Lemma clear_history_reseeds_witness :
  chat_history
    (clear_history Scenario.good
       (fst (fst (generate Scenario.good "inverter"
                    (Scenario.fresh false, Scenario.empty_world))))) =
  chat_history (Scenario.fresh false).
Proof.
  pose proof (clear_history_reseeds Scenario.good
                (fst (fst (generate Scenario.good "inverter"
                             (Scenario.fresh false, Scenario.empty_world))))
                Scenario.empty_world) as H.
  cbv zeta in H. destruct H as (H & _). rewrite H. reflexivity.
Defined.

Section FirstTurn.

Variable O : Oracle.


End FirstTurn.


(** With the snippet "ctx-A" the first prompt holds the preamble and the
    snippet; the second call passes "nand gate" as it is. *)
Lemma first_turn_then_second_turn :
  let first := generate Scenario.good "inverter"
                 (Scenario.fresh false, Scenario.empty_world) in
  nth_error (chat_history (fst (fst first))) 2 =
    Some (Message user
            (preamble ++ context_header ++ "ctx-A" ++ nl ++
             conversion_instruction ++ "inverter"))
  /\ nth_error (chat_history
                  (fst (fst (generate Scenario.good "nand gate" (fst first))))) 4 =
     Some (Message user "nand gate").
Proof. split; reflexivity. Qed.

(** Without a result the first call still returns: the prompt has no
    context block and the answer is added to the history. *)
Lemma first_turn_without_result_returns :
  let O := Scenario.oracle Scenario.tree_with_checkpoint
             Scenario.good_config Scenario.no_snippet in
  let first := generate O "inverter"
                 (Scenario.fresh false, Scenario.empty_world) in
  snd first = Returned "<s>tok tok"
  /\ skipn 2 (chat_history (fst (fst first))) =
     [Message user (preamble ++ conversion_instruction ++ "inverter");
      Message assistant "<s>tok tok"].
Proof. split; reflexivity. Qed.

Section FailedFirstTurn.

Variable O : Oracle.

(** C10: when [model.generate] raises on the first turn, the session is
    left with [pastfirst] already true and the augmented prompt in its
    history; the same input, given again, is passed as it is: the retriever
    is not asked, and the user message added is the input itself. *)
Theorem failed_first_turn_is_spent (u : string) (s : session) (w : world)
    (e : exn) :
  pastfirst s = false ->
  generation_raises O u s w e ->
  let failed := generate O u (s, w) in
  let retry := generate O u (fst failed) in
  snd failed = Raised e
  /\ pastfirst (fst (fst failed)) = true
  /\ build_prompt O u (fst failed) = (fst failed, Returned u)
  /\ exists h evs,
       chat_history (fst (fst retry)) =
       (chat_history (fst (fst failed)) ++ Message user u :: h)%list /\
       trace (snd (fst retry)) = (trace (snd (fst failed)) ++ evs)%list /\
       existsb is_rag_query evs = false.
Proof.
  intros Hpf Hraise failed retry.
  destruct (generation_raises_run Hraise)
    as (p & s1 & w1 & inputs & Hp & _ & Hfail).
  assert (Hs1 : pastfirst s1 = true).
  { rewrite build_prompt_first in Hp by exact Hpf.
    destruct (rag_query O u 1); inversion Hp. reflexivity. }
  unfold retry, failed. rewrite Hfail. cbn [fst snd].
  set (s2 := append_history (Message user p) s1).
  set (w2 := log _ (log _ w1)).
  assert (Hs2 : pastfirst s2 = true) by exact Hs1.
  split; [reflexivity |]. split; [exact Hs2 |].
  split; [apply build_prompt_past; exact Hs2 |].
  rewrite generate_run, build_prompt_past by exact Hs2.
  rewrite answer_turn_run. cbv zeta.
  destruct (apply_chat_template O _ _) as [inputs' | e'];
    [destruct (model_generate O _ _ _ _ _) as [outputs | e'];
     [destruct (nth_error outputs 0) as [first_out |];
      [destruct (nth_error inputs' 0) as [first_in |] | ] | ] | ];
    cbn [fst snd chat_history append_history set_chat_history trace log];
    rewrite <- ?app_assoc; cbn [app];
    do 2 eexists; (split; [reflexivity |]); (split; [reflexivity |]);
    reflexivity.
Qed.

End FailedFirstTurn.

Lemma failed_first_turn_is_spent_witness :
  let O := Scenario.with_failing_generate (fun n => Nat.eqb n 2) Scenario.good in
  let failed := generate O "inverter" (Scenario.fresh false, Scenario.empty_world) in
  snd failed = Raised (LibraryError "model.generate")
  /\ pastfirst (fst (fst failed)) = true
  /\ build_prompt O "inverter" (fst failed) = (fst failed, Returned "inverter")
  /\ exists h evs,
       chat_history (fst (fst (generate O "inverter" (fst failed)))) =
       (chat_history (fst (fst failed)) ++ Message user "inverter" :: h)%list /\
       trace (snd (fst (generate O "inverter" (fst failed)))) =
       (trace (snd (fst failed)) ++ evs)%list /\
       existsb is_rag_query evs = false.
Proof.
  apply (@failed_first_turn_is_spent
           (Scenario.with_failing_generate (fun n => Nat.eqb n 2) Scenario.good)
           "inverter" (Scenario.fresh false) Scenario.empty_world
           (LibraryError "model.generate") eq_refl).
  do 4 eexists. split; [cbv; reflexivity | split; cbv; reflexivity].
Defined.

(** In that world the second attempt returns, and the history ends with the
    bare input and its answer. *)
Lemma retry_after_failed_first_turn :
  let O := Scenario.with_failing_generate (fun n => Nat.eqb n 2) Scenario.good in
  let sw := run O [Generate "inverter"; Generate "inverter"]
                (Scenario.fresh false, Scenario.empty_world) in
  map content (skipn 2 (chat_history (fst sw))) =
  [preamble ++ context_header ++ "ctx-A" ++ nl ++
   conversion_instruction ++ "inverter";
   "inverter"; "<s>tok tok"]
  /\ filter is_rag_query (trace (snd sw)) = [EvRagQuery "inverter" 1].
Proof. split; reflexivity. Qed.

(** ** Budgets and decoding *)

Section Budgets.

Variable O : Oracle.

(** C9: [run_llm_normal], left to its default, asks the model for at most
    1000 new tokens and decodes, with special tokens skipped, the whole
    first sequence the model returned; [generate] asks for at most 1024 and
    decodes, with special tokens kept, the first sequence the model returned
    for the rendered history, without its first [len(inputs[0])] tokens and
    without its last token. *)
Theorem budgets_and_decoding :
  (forall m t dev prompt w,
     exists evs,
       trace (fst (run_llm_normal O m t dev prompt None w)) =
       (trace w ++ evs)%list /\ Forall helper_event_ok evs)
  /\ (forall m t dev prompt w response,
        snd (run_llm_normal O m t dev prompt None w) = Returned response ->
        exists inputs outputs first_out,
          let n := List.length (trace w) in
          apply_chat_template O n [Message user prompt] = Returned inputs /\
          model_generate O (S n) m inputs 1000 None = Returned outputs /\
          nth_error outputs 0 = Some first_out /\
          trace (fst (run_llm_normal O m t dev prompt None w)) =
          (trace w ++ [EvApplyChatTemplate [Message user prompt];
                       EvModelGenerate m inputs 1000 None;
                       EvDecode first_out true])%list /\
          response = decode O first_out true)
  /\ (forall u s w,
        exists evs,
          trace (snd (fst (generate O u (s, w)))) = (trace w ++ evs)%list /\
          Forall session_event_ok evs)
  /\ (forall u s w response,
        snd (generate O u (s, w)) = Returned response ->
        exists retrieval full_prompt inputs outputs first_in first_out,
          let n := List.length (trace w) + List.length retrieval in
          let history := (chat_history s ++ [Message user full_prompt])%list in
          let pad := pad_token_id O (tokenizer s) in
          let new_tokens :=
            skipn (List.length first_in) (removelast first_out) in
          apply_chat_template O n history = Returned inputs /\
          model_generate O (S n) (model s) inputs 1024 pad = Returned outputs /\
          nth_error inputs 0 = Some first_in /\
          nth_error outputs 0 = Some first_out /\
          trace (snd (fst (generate O u (s, w)))) =
          (trace w ++ retrieval ++
           [EvApplyChatTemplate history;
            EvModelGenerate (model s) inputs 1024 pad;
            EvDecode new_tokens false])%list /\
          existsb (fun ev => negb (is_rag_query ev)) retrieval = false /\
          response = decode O new_tokens false)
  /\ 1000%Z <> 1024%Z.
Proof.
  repeat split.
  - intros m t dev prompt w.
    unfold run_llm_normal, bind, lift_outcome, index.
    rewrite !extern_run.
    destruct (apply_chat_template O _ _) as [inputs | e];
      [rewrite extern_run;
       destruct (model_generate O _ _ _ _ _) as [outputs | e];
       [destruct (nth_error outputs 0) as [first_out |] | ] | ];
      cbn [fst trace log extern]; rewrite <- ?app_assoc; cbn [app];
      eexists; (split; [reflexivity |]);
      repeat constructor.
  - intros m t dev prompt w response.
    unfold run_llm_normal, bind, lift_outcome, index.
    rewrite !extern_run.
    destruct (apply_chat_template O _ _) as [inputs | e] eqn:Htem;
      [| discriminate].
    rewrite extern_run, length_trace_log.
    destruct (model_generate O _ _ _ _ _) as [outputs | e] eqn:Hgen;
      [| discriminate].
    destruct (nth_error outputs 0) as [first_out |] eqn:Hout; [| discriminate].
    cbn [fst snd trace log extern]. intros E. inversion E.
    exists inputs, outputs, first_out. cbv zeta. rewrite <- ?app_assoc.
    repeat split; assumption.
  - intros u s w. rewrite generate_run.
    assert (Hturn : forall p s1 w1,
               exists evs,
                 trace (snd (fst (answer_turn O p (s1, w1)))) =
                 (trace w1 ++ evs)%list /\ Forall session_event_ok evs).
    { intros p s1 w1. rewrite answer_turn_run. cbv zeta.
      destruct (apply_chat_template O _ _) as [inputs | e];
        [destruct (model_generate O _ _ _ _ _) as [outputs | e];
         [destruct (nth_error outputs 0) as [first_out |];
          [destruct (nth_error inputs 0) as [first_in |] | ] | ] | ];
        cbn [fst snd trace log]; rewrite <- ?app_assoc; cbn [app];
        eexists; (split; [reflexivity |]); repeat constructor. }
    destruct (pastfirst s) eqn:Hpf.
    + rewrite build_prompt_past by exact Hpf. apply Hturn.
    + rewrite build_prompt_first by exact Hpf.
      destruct (rag_query O u 1) as [| r rest].
      * exists [EvRagQuery u 1]. split; [reflexivity | repeat constructor].
      * match goal with
        | |- context [answer_turn O ?p (?s1, ?w1)] =>
            destruct (Hturn p s1 w1) as (evs & -> & Hok)
        end.
        exists (EvRagQuery u 1 :: evs). cbn [trace log].
        rewrite <- app_assoc. split; [reflexivity |].
        constructor; [exact I | exact Hok].
  - intros u s w response. rewrite generate_run.
    assert (Hturn : forall p s1 w1 resp,
               snd (answer_turn O p (s1, w1)) = Returned resp ->
               exists inputs outputs first_in first_out,
                 apply_chat_template O (List.length (trace w1))
                   (chat_history s1 ++ [Message user p])%list =
                   Returned inputs /\
                 model_generate O (S (List.length (trace w1))) (model s1)
                   inputs 1024 (pad_token_id O (tokenizer s1)) =
                   Returned outputs /\
                 nth_error inputs 0 = Some first_in /\
                 nth_error outputs 0 = Some first_out /\
                 trace (snd (fst (answer_turn O p (s1, w1)))) =
                 (trace w1 ++
                  [EvApplyChatTemplate (chat_history s1 ++ [Message user p]);
                   EvModelGenerate (model s1) inputs 1024
                     (pad_token_id O (tokenizer s1));
                   EvDecode (skipn (List.length first_in) (removelast first_out))
                            false])%list /\
                 resp = decode O (skipn (List.length first_in)
                                        (removelast first_out)) false).
    { intros p s1 w1 resp. rewrite answer_turn_run. cbv zeta.
      cbn [chat_history append_history set_chat_history].
      destruct (apply_chat_template O _ _) as [inputs | e] eqn:Htem;
        [| discriminate].
      destruct (model_generate O _ _ _ _ _) as [outputs | e] eqn:Hgen;
        [| discriminate].
      destruct (nth_error outputs 0) as [first_out |] eqn:Hout;
        [| discriminate].
      destruct (nth_error inputs 0) as [first_in |] eqn:Hin; [| discriminate].
      cbn [fst snd trace log]. rewrite slice_drops_prefix_and_last.
      intros E. inversion E.
      exists inputs, outputs, first_in, first_out.
      rewrite <- ?app_assoc. repeat split; assumption. }
    destruct (pastfirst s) eqn:Hpf.
    + rewrite build_prompt_past by exact Hpf. intros Hret.
      destruct (Hturn _ _ _ _ Hret)
        as (i & o & fi & fo & Htem & Hgen & Hin & Hout & Ht & Hr).
      exists [], u, i, o, fi, fo. cbv zeta. cbn [List.length app].
      rewrite Nat.add_0_r. repeat split; assumption.
    + rewrite build_prompt_first by exact Hpf.
      destruct (rag_query O u 1) as [| r rest]; [discriminate |].
      intros Hret.
      destruct (Hturn _ _ _ _ Hret)
        as (i & o & fi & fo & Htem & Hgen & Hin & Hout & Ht & Hr).
      cbn [chat_history model tokenizer set_pastfirst] in Htem, Hgen, Ht.
      rewrite length_trace_log in Htem, Hgen.
      eexists [EvRagQuery u 1], _, i, o, fi, fo. cbv zeta.
      cbn [List.length]. rewrite Nat.add_1_r.
      split; [exact Htem |]. split; [exact Hgen |].
      split; [exact Hin |]. split; [exact Hout |].
      split; [| split; [reflexivity | exact Hr]].
      rewrite Ht. cbn [trace log]. rewrite <- app_assoc. reflexivity.
  - discriminate.
Qed.

End Budgets.

Lemma budgets_and_decoding_witness :
  (exists inputs outputs first_out,
     apply_chat_template Scenario.good 0 [Message user "hi"] = Returned inputs /\
     model_generate Scenario.good 1 (model (Scenario.fresh true)) inputs 1000
       None = Returned outputs /\
     nth_error outputs 0 = Some first_out /\
     trace (fst (run_llm_normal Scenario.good
                   (model (Scenario.fresh true))
                   (tokenizer (Scenario.fresh true))
                   "cuda" "hi" None Scenario.empty_world)) =
     ([] ++ [EvApplyChatTemplate [Message user "hi"];
             EvModelGenerate (model (Scenario.fresh true)) inputs 1000 None;
             EvDecode first_out true])%list /\
     "tok tok tok tok" = decode Scenario.good first_out true)
  /\ (exists retrieval full_prompt inputs outputs first_in first_out,
        apply_chat_template Scenario.good (0 + List.length retrieval)
          (chat_history (Scenario.fresh true) ++ [Message user full_prompt])%list
          = Returned inputs /\
        model_generate Scenario.good (S (0 + List.length retrieval))
          (model (Scenario.fresh true)) inputs 1024
          (pad_token_id Scenario.good (tokenizer (Scenario.fresh true))) =
          Returned outputs /\
        nth_error inputs 0 = Some first_in /\
        nth_error outputs 0 = Some first_out /\
        trace (snd (fst (generate Scenario.good "nand gate"
                           (Scenario.fresh true, Scenario.empty_world)))) =
        ([] ++ retrieval ++
         [EvApplyChatTemplate
            (chat_history (Scenario.fresh true) ++ [Message user full_prompt]);
          EvModelGenerate (model (Scenario.fresh true)) inputs 1024
            (pad_token_id Scenario.good (tokenizer (Scenario.fresh true)));
          EvDecode (skipn (List.length first_in) (removelast first_out))
                   false])%list /\
        existsb (fun ev => negb (is_rag_query ev)) retrieval = false /\
        "<s>tok tok" =
        decode Scenario.good
          (skipn (List.length first_in) (removelast first_out)) false).
Proof.
  split.
  - apply (budgets_and_decoding Scenario.good). reflexivity.
  - apply (budgets_and_decoding Scenario.good). reflexivity.
Defined.

(** * Further properties *)

(** ** Normalisation of the model size *)

Lemma isspace_lower_char c : PyStr.isspace (PyStr.lower_char c) = PyStr.isspace c.
Proof. destruct c as [[] [] [] [] [] [] [] []]; reflexivity. Qed.

Lemma lower_char_idempotent c :
  PyStr.lower_char (PyStr.lower_char c) = PyStr.lower_char c.
Proof. destruct c as [[] [] [] [] [] [] [] []]; reflexivity. Qed.

Lemma lower_idempotent s : PyStr.lower (PyStr.lower s) = PyStr.lower s.
Proof.
  induction s as [| c t IH]; [reflexivity |].
  cbn [PyStr.lower]. rewrite lower_char_idempotent, IH. reflexivity.
Qed.

Lemma lstrip_lower s : PyStr.lstrip (PyStr.lower s) = PyStr.lower (PyStr.lstrip s).
Proof.
  induction s as [| c t IH]; [reflexivity |].
  cbn [PyStr.lower PyStr.lstrip]. rewrite isspace_lower_char.
  destruct (PyStr.isspace c); [exact IH | reflexivity].
Qed.

Lemma rstrip_lower s : PyStr.rstrip (PyStr.lower s) = PyStr.lower (PyStr.rstrip s).
Proof.
  induction s as [| c t IH]; [reflexivity |].
  cbn [PyStr.lower PyStr.rstrip]. rewrite IH, isspace_lower_char.
  destruct (PyStr.rstrip t); cbn [PyStr.lower];
    [destruct (PyStr.isspace c) |]; reflexivity.
Qed.

Lemma strip_lower s : PyStr.strip (PyStr.lower s) = PyStr.lower (PyStr.strip s).
Proof. unfold PyStr.strip. rewrite lstrip_lower, rstrip_lower. reflexivity. Qed.

Lemma rstrip_idempotent s : PyStr.rstrip (PyStr.rstrip s) = PyStr.rstrip s.
Proof.
  induction s as [| c t IH]; [reflexivity |].
  cbn [PyStr.rstrip].
  destruct (PyStr.rstrip t) as [| a r] eqn:E.
  - destruct (PyStr.isspace c) eqn:Hc; [reflexivity |].
    cbn [PyStr.rstrip]. rewrite Hc. reflexivity.
  - change (PyStr.rstrip (String c (String a r)))
      with (match PyStr.rstrip (String a r) with
            | EmptyString =>
                if PyStr.isspace c then EmptyString else String c EmptyString
            | t' => String c t'
            end).
    rewrite IH. reflexivity.
Qed.

Lemma lstrip_starts_clean s : starts_clean (PyStr.lstrip s).
Proof.
  induction s as [| c t IH]; [exact I |].
  cbn [PyStr.lstrip]. destruct (PyStr.isspace c) eqn:Hc; [exact IH | exact Hc].
Qed.

Lemma lstrip_of_clean s : starts_clean s -> PyStr.lstrip s = s.
Proof.
  destruct s as [| c t]; [reflexivity |].
  cbn [starts_clean PyStr.lstrip]. intros ->. reflexivity.
Qed.

Lemma rstrip_keeps_clean s : starts_clean s -> starts_clean (PyStr.rstrip s).
Proof.
  destruct s as [| c t]; [intros; exact I |].
  cbn [starts_clean PyStr.rstrip]. intros Hc.
  destruct (PyStr.rstrip t); [rewrite Hc |]; exact Hc.
Qed.

Lemma strip_idempotent s : PyStr.strip (PyStr.strip s) = PyStr.strip s.
Proof.
  unfold PyStr.strip.
  rewrite (@lstrip_of_clean _ (@rstrip_keeps_clean _ (lstrip_starts_clean s))).
  apply rstrip_idempotent.
Qed.

Lemma normalise_idempotent s :
  PyStr.lower (PyStr.strip (PyStr.lower (PyStr.strip s))) =
  PyStr.lower (PyStr.strip s).
Proof. rewrite strip_lower, strip_idempotent, lower_idempotent. reflexivity. Qed.

Lemma lstrip_space ws : all_space ws = true -> PyStr.lstrip ws = EmptyString.
Proof.
  induction ws as [| c t IH]; [reflexivity |].
  cbn [all_space PyStr.lstrip]. intros H. apply andb_prop in H.
  destruct H as [-> H]. exact (IH H).
Qed.

Lemma rstrip_space ws : all_space ws = true -> PyStr.rstrip ws = EmptyString.
Proof.
  induction ws as [| c t IH]; [reflexivity |].
  cbn [all_space PyStr.rstrip]. intros H. apply andb_prop in H.
  destruct H as [Hc H]. rewrite (IH H), Hc. reflexivity.
Qed.

Lemma lstrip_padding ws s :
  all_space ws = true -> PyStr.lstrip (ws ++ s) = PyStr.lstrip s.
Proof.
  induction ws as [| c t IH]; [reflexivity |].
  cbn [all_space append PyStr.lstrip]. intros H. apply andb_prop in H.
  destruct H as [-> H]. exact (IH H).
Qed.

Lemma rstrip_padding ws s :
  all_space ws = true -> PyStr.rstrip (s ++ ws) = PyStr.rstrip s.
Proof.
  intros H. induction s as [| c t IH]; [exact (@rstrip_space ws H) |].
  cbn [append PyStr.rstrip]. rewrite IH. reflexivity.
Qed.

Lemma strip_padding ws1 ws2 s :
  all_space ws1 = true -> all_space ws2 = true ->
  PyStr.strip (ws1 ++ s ++ ws2) = PyStr.strip s.
Proof.
  intros H1 H2. unfold PyStr.strip. rewrite (@lstrip_padding ws1 _ H1).
  induction s as [| c t IH].
  - cbn [append]. rewrite (@lstrip_space ws2 H2). reflexivity.
  - cbn [append PyStr.lstrip]. destruct (PyStr.isspace c); [exact IH |].
    exact (@rstrip_padding ws2 (String c t) H2).
Qed.

(** X1: the catalog does not see white space around a model size, nor the
    case of its letters. *)
Theorem model_catalog_ignores_padding_and_case (ws1 ws2 key key' : string) :
  all_space ws1 = true -> all_space ws2 = true ->
  PyStr.lower key' = PyStr.lower key ->
  model_catalog (ws1 ++ key' ++ ws2) = model_catalog key.
Proof.
  intros H1 H2 Hcase. unfold model_catalog.
  rewrite (@strip_padding ws1 ws2 key' H1 H2).
  rewrite <- !strip_lower, Hcase. reflexivity.
Qed.

Lemma model_catalog_ignores_padding_and_case_witness :
  model_catalog (String (ascii_of_nat 9) " " ++ "22B" ++ nl) = model_catalog "22b".
Proof.
  apply (@model_catalog_ignores_padding_and_case
           (String (ascii_of_nat 9) " ") nl "22b" "22B");
    reflexivity.
Defined.

(** ** Loading and training *)

Section Loading.

Variable O : Oracle.

Ltac run_externs :=
  repeat match goal with
         | |- context [extern ?ev ?a ?w0] => rewrite (extern_run ev a w0)
         | |- context [match ?o with Returned _ => _ | Raised _ => _ end] =>
             destruct o; cbn -[PyStr.contains]
         end.

(** X2: the model size that [__init__] hands on, already stripped and
    lowered, is treated as the raw one by the loader, by the training entry
    point and by [__init__] itself. *)
Theorem normalised_key_is_equivalent (model accesstoken device : string)
    (lora converse_mode : bool) (w : world) :
  let key := PyStr.lower (PyStr.strip model) in
  load_model_and_tokenizer O key accesstoken device lora w =
  load_model_and_tokenizer O model accesstoken device lora w
  /\ run_full_SFT_training O key accesstoken w =
     run_full_SFT_training O model accesstoken w
  /\ init O key accesstoken converse_mode w =
     init O model accesstoken converse_mode w.
Proof.
  cbv zeta.
  assert (Hload : forall dev l w0,
             load_model_and_tokenizer O (PyStr.lower (PyStr.strip model))
               accesstoken dev l w0 =
             load_model_and_tokenizer O model accesstoken dev l w0).
  { intros dev l w0. unfold load_model_and_tokenizer, model_catalog.
    rewrite !normalise_idempotent. reflexivity. }
  split; [apply Hload |]. split.
  - unfold run_full_SFT_training, bind. rewrite Hload. reflexivity.
  - unfold init. rewrite !normalise_idempotent. reflexivity.
Qed.

(** X3: a model size outside the catalog is refused before anything is
    downloaded: the loader and the training entry point raise the
    ValueError and leave the globals and the trace as they were; a
    constructor that selects no checkpoint has only scanned by then. *)
Theorem unknown_model_fails_first (model accesstoken device : string)
    (lora converse_mode : bool) (w : world) :
  recognized (PyStr.lower (PyStr.strip model)) = false ->
  load_model_and_tokenizer O model accesstoken device lora w =
    (w, Raised invalid_model_key)
  /\ run_full_SFT_training O model accesstoken w = (w, Raised invalid_model_key)
  /\ (select_checkpoint (glob (tree O)) = None ->
      init O model accesstoken converse_mode w =
      (log (EvGlob "**/*checkpoint-bestperf*") w, Raised invalid_model_key)).
Proof.
  intros Hrec.
  assert (Hcat : forall m, PyStr.lower (PyStr.strip m) = PyStr.lower (PyStr.strip model) ->
                           model_catalog m = Raised invalid_model_key).
  { intros m Hm. unfold model_catalog. rewrite Hm.
    unfold recognized in Hrec.
    destruct (_ =? "3b"); [discriminate |].
    destruct (_ =? "7b"); [discriminate |].
    destruct (_ =? "22b"); [discriminate | reflexivity]. }
  assert (Hload : forall m dev l w0,
             PyStr.lower (PyStr.strip m) = PyStr.lower (PyStr.strip model) ->
             load_model_and_tokenizer O m accesstoken dev l w0 =
             (w0, Raised invalid_model_key)).
  { intros m dev l w0 Hm. unfold load_model_and_tokenizer, bind, lift_outcome.
    rewrite (Hcat m Hm). reflexivity. }
  split; [apply Hload; reflexivity |]. split.
  - unfold run_full_SFT_training, bind. rewrite Hload; reflexivity.
  - intros Hsel. rewrite init_run, Hsel. cbv zeta.
    unfold run_full_SFT_training, bind.
    rewrite Hload by apply normalise_idempotent. reflexivity.
Qed.

(** X4: when the loader returns, the two globals name the family of the
    model just loaded, whatever they held before: [microsoft_model] is set
    exactly for the size "3b", [mistral_model] exactly for the others; the
    model carries the LoRA target modules of its catalog entry, and the
    tokenizer is built from the same model name and given the pad token. *)
Theorem load_model_and_tokenizer_result (model accesstoken device : string)
    (lora : bool) (w w' : world) (mt : Model * Tokenizer) :
  load_model_and_tokenizer O model accesstoken device lora w = (w', Returned mt) ->
  let key := PyStr.lower (PyStr.strip model) in
  microsoft_model w' = (key =? "3b")
  /\ mistral_model w' = negb (key =? "3b")
  /\ exists d,
       model_catalog model = Returned d /\
       fst mt = (if lora then PeftModel (modelname d) (target_modules d)
                 else QuantizedModel (modelname d)) /\
       snd mt = MkTokenizer (PStr (modelname d)) (Some "[PAD]").
Proof.
  cbv zeta. unfold load_model_and_tokenizer, model_catalog.
  set (key := PyStr.lower (PyStr.strip model)).
  unfold bind, lift_outcome, modify, ret.
  destruct (key =? "3b"), (key =? "7b"), (key =? "22b");
    cbn -[PyStr.contains]; run_externs;
    intros E; inversion E; subst;
    (split; [reflexivity |]); (split; [reflexivity |]);
    eexists; repeat split.
Qed.

(** X5: a trainer that [run_full_SFT_training] builds gets the model loaded
    in the same call, the collator of that model's family and the output
    directory of that family, whatever the globals held when the call
    started; what it saves goes to [checkpoint-bestperf] in that directory. *)
Theorem run_full_SFT_training_uses_loaded_family (model accesstoken : string)
    (w : world) (ev : event) :
  In ev (trace (fst (run_full_SFT_training O model accesstoken w))) ->
  In ev (trace w)
  \/ match ev with
     | EvTrain m c dir =>
         exists d, model_catalog model = Returned d /\
                   m = PeftModel (modelname d) (target_modules d) /\
                   c = collator_of d /\ dir = output_dir_of d
     | EvSavePretrained m dir =>
         exists d, model_catalog model = Returned d /\
                   m = PeftModel (modelname d) (target_modules d) /\
                   dir = (output_dir_of d ++ [checkpoint_marker])%list
     | _ => True
     end.
Proof.
  unfold run_full_SFT_training, sft_train, load_model_and_tokenizer,
    model_catalog.
  set (key := PyStr.lower (PyStr.strip model)).
  unfold bind, lift_outcome, modify, ret, get, select_data_collator.
  destruct (key =? "3b"), (key =? "7b"), (key =? "22b");
    cbn -[In]; run_externs;
    cbn [fst trace log]; rewrite <- ?app_assoc; cbn [app];
    intros Hin; try (left; exact Hin); apply in_app_or in Hin;
    (destruct Hin as [Hin | Hin]; [left; exact Hin | right]);
    cbn [In] in Hin;
    repeat match type of Hin with
           | _ \/ _ => destruct Hin as [Hin | Hin]
           | False => contradiction
           | _ = _ => subst ev
           end;
    try exact I; eexists; repeat split.
Qed.

End Loading.

Lemma unknown_model_fails_first_witness :
  run_full_SFT_training Scenario.good "13b" "hf_token" Scenario.empty_world =
  (Scenario.empty_world, Raised invalid_model_key).
Proof.
  apply (@unknown_model_fails_first Scenario.good "13b" "hf_token" "cuda"
           true false Scenario.empty_world eq_refl).
Defined.

Lemma load_model_and_tokenizer_result_witness :
  microsoft_model
    (fst (load_model_and_tokenizer Scenario.good " 3B" "hf_token" "cuda" true
            (World false true []))) = true.
Proof.
  destruct (load_model_and_tokenizer Scenario.good " 3B" "hf_token" "cuda" true
              (World false true [])) as [w' [mt | e]] eqn:E.
  - apply (@load_model_and_tokenizer_result Scenario.good " 3B" "hf_token"
             "cuda" true (World false true []) w' mt E).
  - discriminate E.
Defined.

Lemma run_full_SFT_training_uses_loaded_family_witness :
  In (EvTrain (PeftModel "mistralai/Mistral-7B-Instruct-v0.3"
                         ["q_proj"; "k_proj"; "v_proj"])
              mistral_collator ["glayout_llm_checkpointsmstrl"])
     (trace Scenario.empty_world)
  \/ exists d, model_catalog "7b" = Returned d /\
               PeftModel "mistralai/Mistral-7B-Instruct-v0.3"
                         ["q_proj"; "k_proj"; "v_proj"] =
               PeftModel (modelname d) (target_modules d) /\
               mistral_collator = collator_of d /\
               ["glayout_llm_checkpointsmstrl"] = output_dir_of d.
Proof.
  apply (@run_full_SFT_training_uses_loaded_family Scenario.good "7b" "hf_token"
           (World true false [])
           (EvTrain (PeftModel "mistralai/Mistral-7B-Instruct-v0.3"
                               ["q_proj"; "k_proj"; "v_proj"])
                    mistral_collator ["glayout_llm_checkpointsmstrl"])).
  vm_compute. do 3 right. left. reflexivity.
Defined.

(** ** Checkpoints *)

Lemma dict_lookup_present items key v :
  NoDup (map fst items) -> In (key, v) items -> dict_lookup items key = v.
Proof.
  induction items as [| [k v'] rest IH]; intros Hnd Hin; [contradiction |].
  cbn [map fst] in Hnd. inversion Hnd as [| ? ? Hnotin Hnd']; subst.
  cbn [dict_lookup]. destruct Hin as [E | Hin].
  - inversion E; subst. rewrite String.eqb_refl. reflexivity.
  - destruct (String.eqb_spec k key) as [-> | _].
    + exfalso. apply Hnotin. apply in_map_iff. exists (key, v). auto.
    + apply IH; assumption.
Qed.

Section Checkpoints.

Variable O : Oracle.

(** X6: the tokenizer of a restored session is built from the identifier
    recorded in the sidecar file: with the adapter weights loaded and
    [adapter_config.json] holding [base_model_name_or_path: v], the
    tokenizer loader is called with [v] and nothing else, and the tokenizer
    returned is the one built from [v]. *)
Theorem load_model_from_checkpoint_uses_recorded_base
    (checkpoint_dir : path) (w : world) (items : list (string * pyval))
    (v : pyval) :
  let n := List.length (trace w) in
  let sidecar := (checkpoint_dir ++ ["adapter_config.json"])%list in
  peft_from_pretrained O n checkpoint_dir = Returned tt ->
  open_json O (S n) sidecar = Returned (PDict items) ->
  NoDup (map fst items) ->
  In ("base_model_name_or_path", v) items ->
  tokenizer_from_pretrained O (S (S n)) v = Returned tt ->
  load_model_from_checkpoint O checkpoint_dir w =
  (World (microsoft_model w) (mistral_model w)
     (trace w ++ [EvPeftFromPretrained checkpoint_dir; EvOpenJson sidecar;
                  EvTokenizerFromPretrained v]),
   Returned (PeftFromCheckpoint checkpoint_dir, MkTokenizer v (Some "[PAD]"))).
Proof.
  intros n sidecar Hpeft Hjson Hnd Hin Htok.
  unfold load_model_from_checkpoint, get_base_model_name_or_path, bind.
  rewrite extern_run. fold n. rewrite Hpeft.
  rewrite extern_run, length_trace_log. fold n. fold sidecar. rewrite Hjson.
  unfold lift_outcome, py_get. rewrite (@dict_lookup_present items _ v Hnd Hin).
  rewrite extern_run, !length_trace_log. fold n. rewrite Htok.
  unfold ret, log. cbn [trace microsoft_model mistral_model].
  rewrite <- !app_assoc. reflexivity.
Qed.

(** X7: a sidecar file that cannot be read, or that holds anything but an
    object, stops the load after the adapter weights were loaded: the error
    of the read, or an AttributeError, is raised, and the tokenizer loader is
    not called. *)
Theorem load_model_from_checkpoint_bad_sidecar
    (checkpoint_dir : path) (w : world) :
  let n := List.length (trace w) in
  let sidecar := (checkpoint_dir ++ ["adapter_config.json"])%list in
  let stopped := log (EvOpenJson sidecar)
                     (log (EvPeftFromPretrained checkpoint_dir) w) in
  peft_from_pretrained O n checkpoint_dir = Returned tt ->
  (forall e, open_json O (S n) sidecar = Raised e ->
             load_model_from_checkpoint O checkpoint_dir w = (stopped, Raised e))
  /\ (forall data, open_json O (S n) sidecar = Returned data ->
                   is_dict data = false ->
                   load_model_from_checkpoint O checkpoint_dir w =
                   (stopped, Raised AttributeError)).
Proof.
  intros n sidecar stopped Hpeft.
  unfold load_model_from_checkpoint, get_base_model_name_or_path, bind.
  rewrite extern_run. fold n. rewrite Hpeft.
  rewrite extern_run, length_trace_log. fold n. fold sidecar.
  split.
  - intros e ->. reflexivity.
  - intros data -> Hdict. destruct data; try reflexivity. discriminate Hdict.
Qed.

(** X8: when the scan selects a checkpoint, the model size given to the
    constructor plays no part: any two sizes, in the catalog or not, give
    the same result. *)
Theorem init_with_checkpoint_ignores_model (model model' accesstoken : string)
    (converse_mode : bool) (w : world) (checkpoint_dir : path) :
  select_checkpoint (glob (tree O)) = Some checkpoint_dir ->
  init O model accesstoken converse_mode w =
  init O model' accesstoken converse_mode w.
Proof. intros Hsel. rewrite !init_run, Hsel. reflexivity. Qed.

End Checkpoints.

Lemma last_in A (l : list A) (d : A) : In (last l d) (d :: l).
Proof.
  revert d. induction l as [| a l IH]; intros d; [left; reflexivity |].
  destruct l as [| b l']; [right; left; reflexivity |].
  change (last (a :: b :: l') d) with (last (b :: l') d).
  destruct (IH d) as [E | Hin]; [left; exact E | right; right; exact Hin].
Qed.

(** X9: a checkpoint the scan selects is a directory that lies below the
    root, at the selected path, and whose name holds the marker. *)
Theorem selected_checkpoint_is_found_directory (root : node) (p : path) :
  select_checkpoint (glob root) = Some p ->
  exists name children,
    reaches root p (Dir name children) /\
    PyStr.contains checkpoint_marker name = true.
Proof.
  unfold select_checkpoint.
  destruct (glob root) as [| d rest] eqn:Hglob; [discriminate |].
  destruct (found_is_dir (last rest d)) eqn:Hdir; [| discriminate].
  intros E. inversion E; subst p.
  assert (Hin : In (last rest d) (glob root)).
  { rewrite Hglob. apply last_in. }
  unfold glob in Hin. apply glob_in_sound in Hin.
  destruct Hin as (q & n & Hr & Hm & Hf).
  rewrite Hf in Hdir |- *. cbn [found_path found_is_dir app] in *.
  destruct n as [name | name children]; [discriminate Hdir |].
  exists name, children. split; assumption.
Qed.

Lemma selected_checkpoint_is_found_directory_witness :
  exists name children,
    reaches Scenario.tree_with_checkpoint
      ["glayout_llm_checkpointsphi"; "checkpoint-bestperf"]
      (Dir name children) /\
    PyStr.contains checkpoint_marker name = true.
Proof.
  apply (@selected_checkpoint_is_found_directory Scenario.tree_with_checkpoint
           ["glayout_llm_checkpointsphi"; "checkpoint-bestperf"] eq_refl).
Defined.

Lemma load_model_from_checkpoint_uses_recorded_base_witness :
  load_model_from_checkpoint Scenario.good
    ["glayout_llm_checkpointsphi"; "checkpoint-bestperf"] Scenario.empty_world =
  (World false false
     ([] ++ [EvPeftFromPretrained
               ["glayout_llm_checkpointsphi"; "checkpoint-bestperf"];
             EvOpenJson (["glayout_llm_checkpointsphi"; "checkpoint-bestperf"]
                           ++ ["adapter_config.json"])%list;
             EvTokenizerFromPretrained
               (PStr "microsoft/Phi-3-mini-128k-instruct")])%list,
   Returned (PeftFromCheckpoint
               ["glayout_llm_checkpointsphi"; "checkpoint-bestperf"],
             MkTokenizer (PStr "microsoft/Phi-3-mini-128k-instruct")
                         (Some "[PAD]"))).
Proof.
  apply (@load_model_from_checkpoint_uses_recorded_base Scenario.good
           ["glayout_llm_checkpointsphi"; "checkpoint-bestperf"]
           Scenario.empty_world
           [("peft_type", PStr "LORA");
            ("base_model_name_or_path",
             PStr "microsoft/Phi-3-mini-128k-instruct")]
           (PStr "microsoft/Phi-3-mini-128k-instruct") eq_refl eq_refl).
  - repeat constructor; cbn [In]; intros H;
      repeat match type of H with
             | _ \/ _ => destruct H as [H | H]
             | False => contradiction
             | _ = _ => discriminate H
             end.
  - right. left. reflexivity.
  - reflexivity.
Defined.

Lemma load_model_from_checkpoint_bad_sidecar_witness :
  load_model_from_checkpoint
    (Scenario.oracle Scenario.tree_with_checkpoint (PList [PStr "LORA"])
                     Scenario.one_snippet)
    ["ckpt"; "checkpoint-bestperf"] Scenario.empty_world =
  (log (EvOpenJson (["ckpt"; "checkpoint-bestperf"] ++ ["adapter_config.json"])%list)
       (log (EvPeftFromPretrained ["ckpt"; "checkpoint-bestperf"])
            Scenario.empty_world),
   Raised AttributeError).
Proof.
  apply (proj2 (@load_model_from_checkpoint_bad_sidecar
                  (Scenario.oracle Scenario.tree_with_checkpoint
                                   (PList [PStr "LORA"]) Scenario.one_snippet)
                  ["ckpt"; "checkpoint-bestperf"] Scenario.empty_world eq_refl)
               (PList [PStr "LORA"]) eq_refl eq_refl).
Defined.

Lemma init_with_checkpoint_ignores_model_witness :
  init Scenario.good "3b" "hf_token" false Scenario.empty_world =
  init Scenario.good "not a size" "hf_token" false Scenario.empty_world.
Proof.
  apply (@init_with_checkpoint_ignores_model Scenario.good "3b" "not a size"
           "hf_token" false Scenario.empty_world
           ["glayout_llm_checkpointsphi"; "checkpoint-bestperf"] eq_refl).
Defined.

(** ** The session over several calls *)

Ltac answer_cases O :=
  rewrite (answer_turn_run O); cbv zeta;
  destruct (apply_chat_template O _ _) as [?inputs | ?e];
  [destruct (model_generate O _ _ _ _ _) as [?outputs | ?e];
   [destruct (nth_error _ 0) as [?first_out |];
    [destruct (nth_error _ 0) as [?first_in |] | ] | ] | ];
  cbn [fst snd converse_mode pastfirst model tokenizer chat_history
       accesstoken device RAGvecdb microsoft_model mistral_model trace log
       append_history set_chat_history set_pastfirst].

Section Calls.

Variable O : Oracle.

Lemma answer_turn_effect p s w :
  let sw := fst (answer_turn O p (s, w)) in
  (microsoft_model (snd sw) = microsoft_model w /\
   mistral_model (snd sw) = mistral_model w)
  /\ (exists evs, trace (snd sw) = (trace w ++ evs)%list /\
                  forallb session_call evs = true /\
                  existsb is_rag_query evs = false)
  /\ (exists h, chat_history (fst sw) = (chat_history s ++ h)%list /\
                user_contents h = [p]).
Proof.
  answer_cases O; rewrite <- ?app_assoc; cbn [app].
  all: (split; [split; reflexivity |]).
  all: split.
  all: eexists; (split; [reflexivity |]).
  all: first [reflexivity | split; reflexivity].
Qed.

Lemma generate_effect u s w :
  step_effect u s w (fst (fst (generate O u (s, w))))
              (snd (fst (generate O u (s, w)))).
Proof.
  pose proof (generate_keeps O u s w) as Hkeep. cbv zeta in Hkeep.
  rewrite generate_run in *.
  destruct (pastfirst s) eqn:Hpf.
  - rewrite build_prompt_past in * by exact Hpf.
    pose proof (answer_turn_effect u s w) as (Hg & Ht & Hh). cbv zeta in *.
    pose proof (answer_turn_keeps O u s w) as (_ & Hflag & _).
    cbv zeta in Hflag.
    constructor; auto.
    + intros _. rewrite Hflag. exact Hpf.
    + destruct Ht as (evs & ? & ? & ?). exists evs. auto.
    + destruct Hh as (h & ? & ?). exists h. auto.
  - rewrite build_prompt_first in * by exact Hpf.
    destruct (rag_query O u 1) as [| r rest].
    + cbn [fst snd]. constructor; auto; try (intros; congruence).
      * exists [EvRagQuery u 1].
        split; [reflexivity | split; [reflexivity | intros; congruence]].
      * exists []. rewrite app_nil_r.
        split; [reflexivity | intros; congruence].
    + match goal with
      | |- context [answer_turn O ?p (?s1, ?w1)] =>
          pose proof (answer_turn_effect p s1 w1) as (Hg & Ht & Hh)
      end.
      cbv zeta in *. cbn [microsoft_model mistral_model log trace
                          chat_history set_pastfirst] in *.
      constructor; auto; try (intros; congruence).
      * destruct Ht as (evs & -> & Hc & _). exists (EvRagQuery u 1 :: evs).
        rewrite <- app_assoc.
        split; [reflexivity | split; [exact Hc | intros; congruence]].
      * destruct Hh as (h & -> & _). exists h.
        split; [reflexivity | intros; congruence].
Qed.

Lemma user_contents_app h1 h2 :
  user_contents (h1 ++ h2) = (user_contents h1 ++ user_contents h2)%list.
Proof. unfold user_contents. rewrite filter_app, map_app. reflexivity. Qed.

Lemma forallb_session_call_app l1 l2 :
  forallb session_call l1 = true -> forallb session_call l2 = true ->
  forallb session_call (l1 ++ l2) = true.
Proof. intros H1 H2. rewrite forallb_app, H1, H2. reflexivity. Qed.

(** X10: whatever is asked of a session, and whether its calls return or
    raise, it only queries the retriever, renders, generates and decodes: it
    loads and trains nothing, it leaves the family globals alone, and its
    model, tokenizer and [converse_mode] stay the ones it was built with. *)
Theorem session_calls_only (ops : list op) (s : session) (w : world) :
  let s' := fst (run O ops (s, w)) in
  let w' := snd (run O ops (s, w)) in
  (exists evs, trace w' = (trace w ++ evs)%list /\
               forallb session_call evs = true)
  /\ microsoft_model w' = microsoft_model w
  /\ mistral_model w' = mistral_model w
  /\ model s' = model s /\ tokenizer s' = tokenizer s
  /\ converse_mode s' = converse_mode s.
Proof.
  cbv zeta. revert s w.
  induction ops as [| o ops IH]; intros s w.
  - cbn [run fold_left fst snd]. split; [| repeat split].
    exists []. rewrite app_nil_r. split; reflexivity.
  - change (run O (o :: ops) (s, w)) with (run O ops (step O o (s, w))).
    destruct (step O o (s, w)) as [s1 w1] eqn:Hstep.
    destruct (IH s1 w1) as ((evs & Ht & Hc) & Hms & Hmi & Hm & Htk & Hcm).
    assert (H1 : (exists evs1, trace w1 = (trace w ++ evs1)%list /\
                               forallb session_call evs1 = true)
                 /\ microsoft_model w1 = microsoft_model w
                 /\ mistral_model w1 = mistral_model w
                 /\ model s1 = model s /\ tokenizer s1 = tokenizer s
                 /\ converse_mode s1 = converse_mode s).
    { destruct o as [u |]; cbn [step] in Hstep.
      - pose proof (generate_effect u s w) as E. rewrite Hstep in E.
        cbn [fst snd] in E. destruct E as [[? ?] (? & ? & ?) _ (evs1 & ? & ? & _) _].
        split; [exists evs1; auto | auto].
      - inversion Hstep; subst.
        split; [exists []; rewrite app_nil_r; split; reflexivity |].
        unfold clear_history. destruct s as [[] ? ? ? ? ? ? ?]; repeat split. }
    destruct H1 as ((evs1 & Ht1 & Hc1) & Hms1 & Hmi1 & Hm1 & Htk1 & Hcm1).
    split; [| repeat split; congruence].
    exists (evs1 ++ evs)%list. rewrite Ht, Ht1, <- app_assoc.
    split; [reflexivity | apply forallb_session_call_app; assumption].
Qed.

(** X11: calls of [generate] never drop a message: after any number of
    them, returned or raised, the history starts with the history there was
    before. *)
Theorem generate_only_appends (ops : list op) (s : session) (w : world) :
  forallb is_generate ops = true ->
  exists h, chat_history (fst (run O ops (s, w))) = (chat_history s ++ h)%list.
Proof.
  revert s w. induction ops as [| o ops IH]; intros s w Hops.
  - exists []. rewrite app_nil_r. reflexivity.
  - cbn [forallb] in Hops. apply andb_prop in Hops. destruct Hops as [Ho Hops].
    destruct o as [u |]; [| discriminate Ho].
    change (run O (Generate u :: ops) (s, w))
      with (run O ops (fst (generate O u (s, w)))).
    pose proof (generate_effect u s w) as E.
    destruct (fst (generate O u (s, w))) as [s1 w1]. cbn [fst snd] in E.
    destruct E as [_ _ _ _ (h1 & Hh1 & _)].
    destruct (IH s1 w1 Hops) as (h & Hh).
    exists (h1 ++ h)%list. rewrite Hh, Hh1, <- app_assoc. reflexivity.
Qed.

(** X12: a session in converse mode does no prompt engineering and no
    retrieval: under any sequence of [generate] and [clear_history] the
    retriever is never asked, and the user messages that calls of
    [generate] add are the inputs themselves, in order. *)
Theorem converse_mode_is_plain (ops : list op) (s : session) (w : world) :
  converse_mode s = true -> pastfirst s = true ->
  (exists evs, trace (snd (run O ops (s, w))) = (trace w ++ evs)%list /\
               existsb is_rag_query evs = false)
  /\ (forallb is_generate ops = true ->
      user_contents (chat_history (fst (run O ops (s, w)))) =
      (user_contents (chat_history s) ++ inputs_of ops)%list).
Proof.
  revert s w. induction ops as [| o ops IH]; intros s w Hcm Hpf.
  - cbn [run fold_left fst snd inputs_of flat_map]. split.
    + exists []. rewrite app_nil_r. split; reflexivity.
    + intros _. rewrite app_nil_r. reflexivity.
  - change (run O (o :: ops) (s, w)) with (run O ops (step O o (s, w))).
    destruct o as [u |]; cbn [step].
    + pose proof (generate_effect u s w) as E.
      destruct (fst (generate O u (s, w))) as [s1 w1]. cbn [fst snd] in E.
      destruct E as [_ (Hcm1 & _) Hflag (evs1 & Ht1 & _ & Hr1) (h1 & Hh1 & Hu1)].
      destruct (IH s1 w1) as ((evs & Ht & Hr) & Hu);
        [congruence | auto |].
      split.
      * exists (evs1 ++ evs)%list. rewrite Ht, Ht1, <- app_assoc.
        split; [reflexivity |]. rewrite existsb_app, (Hr1 Hpf), Hr. reflexivity.
      * cbn [forallb is_generate andb]. intros Hops.
        rewrite (Hu Hops), Hh1, user_contents_app, (Hu1 Hpf), <- app_assoc.
        reflexivity.
    + cbn [fst snd].
      destruct (clear_history_flag O s) as [Hf Hc].
      destruct (IH (clear_history O s) w) as (Ht & _); [congruence | congruence |].
      split; [exact Ht | discriminate].
Qed.

End Calls.

Lemma session_calls_only_example :
  let sw := run Scenario.good
              [Generate "inverter"; ClearHistory; Generate "nand gate"]
              (Scenario.fresh false, Scenario.empty_world) in
  filter is_rag_query (trace (snd sw)) =
  [EvRagQuery "inverter" 1; EvRagQuery "nand gate" 1]
  /\ List.length (chat_history (fst sw)) = 4.
Proof. split; reflexivity. Qed.

Lemma generate_only_appends_witness :
  exists h,
    chat_history
      (fst (run (Scenario.with_failing_generate (fun n => Nat.eqb n 2)
                                                Scenario.good)
                [Generate "inverter"; Generate "inverter"]
                (Scenario.fresh false, Scenario.empty_world))) =
    (chat_history (Scenario.fresh false) ++ h)%list.
Proof.
  apply (@generate_only_appends
           (Scenario.with_failing_generate (fun n => Nat.eqb n 2) Scenario.good)
           [Generate "inverter"; Generate "inverter"]
           (Scenario.fresh false) Scenario.empty_world eq_refl).
Defined.

Lemma converse_mode_is_plain_witness :
  user_contents
    (chat_history
       (fst (run Scenario.good [Generate "inverter"; Generate "nand gate"]
                 (Scenario.fresh true, Scenario.empty_world)))) =
  (user_contents (chat_history (Scenario.fresh true)) ++
   inputs_of [Generate "inverter"; Generate "nand gate"])%list.
Proof.
  apply (@converse_mode_is_plain Scenario.good
           [Generate "inverter"; Generate "nand gate"]
           (Scenario.fresh true) Scenario.empty_world eq_refl eq_refl).
  reflexivity.
Defined.

(** ** First turns, resets and failures *)

Lemma alternating_app h t :
  alternating h = true -> alternating (h ++ t) = alternating t.
Proof.
  assert (H : forall n h, List.length h <= n -> alternating h = true ->
                          alternating (h ++ t) = alternating t).
  { induction n as [| n IH]; intros l Hlen Halt.
    - destruct l; [reflexivity | cbn [List.length] in Hlen; lia].
    - destruct l as [| m1 [| m2 rest]]; [reflexivity | discriminate Halt |].
      cbn [alternating] in Halt. apply andb_prop in Halt.
      destruct Halt as [Hroles Hrest].
      cbn [app alternating]. rewrite Hroles. cbn [andb].
      apply IH; [cbn [List.length] in Hlen; lia | exact Hrest]. }
  apply (H (List.length h) h). lia.
Qed.

Section Turns.

Variable O : Oracle.

(** X13: when the retriever answers the first-turn query with an empty
    list, [generate] raises IndexError and leaves the session as it was:
    nothing is added to the history and the first turn is still to come. *)
Theorem empty_retrieval_leaves_session (u : string) (s : session) (w : world) :
  pastfirst s = false ->
  rag_query O u 1 = [] ->
  generate O u (s, w) = ((s, log (EvRagQuery u 1) w), Raised IndexError).
Proof.
  intros Hpf Hrag. rewrite generate_run, build_prompt_first by exact Hpf.
  rewrite Hrag. reflexivity.
Qed.

(** X14: [clear_history] brings the first turn back where [converse_mode]
    is false, however many turns went before: the next prompt is augmented
    again; where [converse_mode] is true it never does, and the next input
    is passed as it is. *)
Theorem clear_history_rearms_first_turn (u : string) (s : session) (w : world)
    (r : option string) (rest : list (option string)) :
  rag_query O u 1 = r :: rest ->
  build_prompt O u (clear_history O s, w) =
  if converse_mode s
  then ((clear_history O s, w), Returned u)
  else ((set_pastfirst true (clear_history O s), log (EvRagQuery u 1) w),
        Returned (match r with
                  | Some c => preamble ++ context_header ++ c ++ nl
                  | None => preamble
                  end ++ conversion_instruction ++ u)).
Proof.
  intros Hrag. destruct (clear_history_flag O s) as [Hflag _].
  destruct (converse_mode s).
  - apply build_prompt_past. exact Hflag.
  - rewrite build_prompt_first by exact Hflag. rewrite Hrag. reflexivity.
Qed.

(** X15: a call of [generate] that returns keeps the history a sequence of
    user messages each followed by its answer, and so does
    [clear_history]. *)
Theorem returned_turn_keeps_alternation (u : string) (s : session) (w : world)
    (response : string) :
  alternating (chat_history s) = true ->
  snd (generate O u (s, w)) = Returned response ->
  alternating (chat_history (fst (fst (generate O u (s, w))))) = true
  /\ alternating (chat_history (clear_history O s)) = true.
Proof.
  intros Halt Hret. split.
  - revert Hret. rewrite generate_run.
    assert (Hturn : forall p s1 w1,
               chat_history s1 = chat_history s ->
               snd (answer_turn O p (s1, w1)) = Returned response ->
               alternating
                 (chat_history (fst (fst (answer_turn O p (s1, w1))))) = true).
    { intros p s1 w1 Hh. answer_cases O; try discriminate.
      intros _. rewrite Hh, <- app_assoc.
      rewrite alternating_app by exact Halt. reflexivity. }
    destruct (pastfirst s) eqn:Hpf.
    + rewrite build_prompt_past by exact Hpf. apply Hturn. reflexivity.
    + rewrite build_prompt_first by exact Hpf.
      destruct (rag_query O u 1); [discriminate |]. apply Hturn. reflexivity.
  - unfold clear_history. destruct s as [[] ? ? ? ? ? ? ?]; reflexivity.
Qed.

(** X16: after a call in which [model.generate] raised, the unanswered
    user message stays, so the next call renders two user messages in a row:
    the history it leaves is no longer a sequence of question and answer. *)
Theorem failed_turn_breaks_alternation (u u2 : string) (s : session)
    (w : world) (e : exn) :
  alternating (chat_history s) = true ->
  generation_raises O u s w e ->
  let failed := fst (generate O u (s, w)) in
  let retry := fst (generate O u2 failed) in
  exists p h evs,
    chat_history (fst retry) =
    (chat_history s ++ Message user p :: Message user u2 :: h)%list
    /\ trace (snd retry) =
       (trace (snd failed) ++
        EvApplyChatTemplate
          (chat_history s ++ [Message user p; Message user u2]) :: evs)%list
    /\ alternating (chat_history (fst retry)) = false.
Proof.
  intros Halt Hraise failed retry.
  destruct (generation_raises_run Hraise)
    as (p & s1 & w1 & inputs & Hp & Hh & Hfail).
  assert (Hs1 : pastfirst s1 = true).
  { destruct (pastfirst s) eqn:Hpf.
    - rewrite build_prompt_past in Hp by exact Hpf. inversion Hp; subst.
      exact Hpf.
    - rewrite build_prompt_first in Hp by exact Hpf.
      destruct (rag_query O u 1); inversion Hp. reflexivity. }
  unfold retry, failed. rewrite Hfail. cbn [fst snd].
  rewrite generate_run, build_prompt_past by exact Hs1.
  exists p.
  answer_cases O; rewrite Hh, <- ?app_assoc; cbn [app];
    do 2 eexists; rewrite <- ?app_assoc; cbn [app];
    (split; [reflexivity |]); (split; [reflexivity |]);
    rewrite alternating_app by exact Halt; reflexivity.
Qed.

(** X17: when the first output sequence is the rendered input followed by
    new tokens, as a causal model returns it, the answer is the decoding of
    the new tokens without the last one; when the output is no longer than
    the input plus one token, nothing is left to decode. *)
Theorem answer_is_new_tokens_without_last (p : string) (s : session)
    (w : world) (inputs outputs : tensor) (first_in first_out : list Z) :
  let history := (chat_history s ++ [Message user p])%list in
  let n := List.length (trace w) in
  apply_chat_template O n history = Returned inputs ->
  model_generate O (S n) (model s) inputs 1024 (pad_token_id O (tokenizer s)) =
    Returned outputs ->
  nth_error inputs 0 = Some first_in ->
  nth_error outputs 0 = Some first_out ->
  (forall new_tokens,
     first_out = (first_in ++ new_tokens)%list ->
     snd (answer_turn O p (s, w)) =
     Returned (decode O (removelast new_tokens) false))
  /\ (List.length first_out <= S (List.length first_in) ->
      snd (answer_turn O p (s, w)) = Returned (decode O [] false)).
Proof.
  intros history n Htem Hgen Hin Hout.
  assert (Hrun : snd (answer_turn O p (s, w)) =
                 Returned (decode O (skipn (List.length first_in)
                                           (removelast first_out)) false)).
  { rewrite answer_turn_run. cbv zeta.
    cbn [chat_history append_history set_chat_history].
    fold history. fold n. rewrite Htem, Hgen, Hout, Hin.
    cbn [snd]. rewrite slice_drops_prefix_and_last. reflexivity. }
  split.
  - intros new_tokens ->. rewrite Hrun. do 2 f_equal.
    destruct new_tokens as [| t ts].
    + rewrite app_nil_r. apply skipn_all2.
      rewrite removelast_firstn_len, length_firstn. lia.
    + rewrite removelast_app by discriminate.
      rewrite skipn_app, skipn_all, Nat.sub_diag. reflexivity.
  - intros Hlen. rewrite Hrun. do 2 f_equal. apply skipn_all2.
    rewrite removelast_firstn_len, length_firstn. lia.
Qed.

End Turns.

Lemma empty_retrieval_leaves_session_witness :
  generate (Scenario.oracle Scenario.tree_with_checkpoint Scenario.good_config
                            Scenario.empty_result)
    "inverter" (Scenario.fresh false, Scenario.empty_world) =
  ((Scenario.fresh false, log (EvRagQuery "inverter" 1) Scenario.empty_world),
   Raised IndexError).
Proof.
  apply (@empty_retrieval_leaves_session
           (Scenario.oracle Scenario.tree_with_checkpoint Scenario.good_config
                            Scenario.empty_result)
           "inverter" (Scenario.fresh false) Scenario.empty_world
           eq_refl eq_refl).
Defined.

Lemma clear_history_rearms_first_turn_witness :
  build_prompt Scenario.good "nand gate"
    (clear_history Scenario.good
       (fst (fst (generate Scenario.good "inverter"
                    (Scenario.fresh false, Scenario.empty_world)))),
     Scenario.empty_world) =
  ((set_pastfirst true (Scenario.fresh false),
    log (EvRagQuery "nand gate" 1) Scenario.empty_world),
   Returned (preamble ++ context_header ++ "ctx-A" ++ nl ++
             conversion_instruction ++ "nand gate")).
Proof.
  apply (@clear_history_rearms_first_turn Scenario.good "nand gate"
           (fst (fst (generate Scenario.good "inverter"
                        (Scenario.fresh false, Scenario.empty_world))))
           Scenario.empty_world (Some "ctx-A") [] eq_refl).
Defined.

Lemma returned_turn_keeps_alternation_witness :
  alternating
    (chat_history
       (fst (fst (generate Scenario.good "inverter"
                    (Scenario.fresh false, Scenario.empty_world))))) = true.
Proof.
  apply (@returned_turn_keeps_alternation Scenario.good "inverter"
           (Scenario.fresh false) Scenario.empty_world "<s>tok tok"
           eq_refl eq_refl).
Defined.

Lemma failed_turn_breaks_alternation_witness :
  let O := Scenario.with_failing_generate (fun n => Nat.eqb n 2) Scenario.good in
  let failed := fst (generate O "inverter"
                       (Scenario.fresh false, Scenario.empty_world)) in
  let retry := fst (generate O "nand gate" failed) in
  exists p h evs,
    chat_history (fst retry) =
    (chat_history (Scenario.fresh false)
       ++ Message user p :: Message user "nand gate" :: h)%list
    /\ trace (snd retry) =
       (trace (snd failed) ++
        EvApplyChatTemplate
          (chat_history (Scenario.fresh false)
             ++ [Message user p; Message user "nand gate"]) :: evs)%list
    /\ alternating (chat_history (fst retry)) = false.
Proof.
  apply (@failed_turn_breaks_alternation
           (Scenario.with_failing_generate (fun n => Nat.eqb n 2) Scenario.good)
           "inverter" "nand gate" (Scenario.fresh false) Scenario.empty_world
           (LibraryError "model.generate") eq_refl).
  do 4 eexists. split; [cbv; reflexivity | split; cbv; reflexivity].
Defined.

Lemma answer_is_new_tokens_without_last_witness :
  snd (answer_turn Scenario.good "nand gate"
         (Scenario.fresh true, Scenario.empty_world)) =
  Returned (decode Scenario.good (removelast [7; 8; 2]%Z) false).
Proof.
  apply (@answer_is_new_tokens_without_last Scenario.good "nand gate"
           (Scenario.fresh true) Scenario.empty_world
           [[9%Z]] [[9; 7; 8; 2]%Z] [9%Z] [9; 7; 8; 2]%Z
           eq_refl eq_refl eq_refl eq_refl).
  reflexivity.
Defined.

(** ** What a constructed session holds *)

Section Construction.

Variable O : Oracle.

Lemma load_model_from_checkpoint_returns dir w w' mt :
  load_model_from_checkpoint O dir w = (w', Returned mt) ->
  exists v, mt = (PeftFromCheckpoint dir, MkTokenizer v (Some "[PAD]")).
Proof.
  unfold load_model_from_checkpoint, get_base_model_name_or_path, bind,
    lift_outcome, ret.
  rewrite extern_run. destruct (peft_from_pretrained O _ _); [| discriminate].
  rewrite extern_run. destruct (open_json O _ _) as [data |]; [| discriminate].
  destruct (py_get data _) as [v |]; [| discriminate].
  rewrite extern_run.
  destruct (tokenizer_from_pretrained O _ _); [| discriminate].
  intros E. inversion E. exists v. reflexivity.
Qed.

Lemma run_full_SFT_training_returns model accesstoken w w' mt :
  run_full_SFT_training O model accesstoken w = (w', Returned mt) ->
  exists d, model_catalog model = Returned d /\
            mt = (PeftModel (modelname d) (target_modules d),
                  MkTokenizer (PStr (modelname d)) (Some "[PAD]")).
Proof.
  unfold run_full_SFT_training, sft_train, load_model_and_tokenizer,
    model_catalog.
  set (key := PyStr.lower (PyStr.strip model)).
  unfold bind, lift_outcome, modify, ret, get, select_data_collator.
  destruct (key =? "3b"), (key =? "7b"), (key =? "22b"); cbn;
    repeat match goal with
           | |- context [extern ?ev ?a ?w0] => rewrite (extern_run ev a w0)
           | |- context [match ?o with Returned _ => _ | Raised _ => _ end] =>
               destruct o; cbn
           end;
    intros E; inversion E; eexists; split; reflexivity.
Qed.

(** X18: a session that [__init__] returns holds the access token, the
    [converse_mode] and the device it was built with, and a tokenizer that
    was given the pad token; its model is the adapter restored from the
    selected checkpoint when the scan selects one, and otherwise the model
    of the catalog entry of the given size, with a tokenizer built from the
    same model name. *)
Theorem init_session_origin (model0 accesstoken0 : string) (cm : bool)
    (w w' : world) (s : session) :
  init O model0 accesstoken0 cm w = (w', Returned s) ->
  converse_mode s = cm /\ accesstoken s = accesstoken0
  /\ device s = (if cuda_is_available O then "cuda" else "cpu")
  /\ RAGvecdb s = ["rag_data"]
  /\ tok_pad_token (tokenizer s) = Some "[PAD]"
  /\ match select_checkpoint (glob (tree O)) with
     | Some dir => model s = PeftFromCheckpoint dir
     | None =>
         exists d, model_catalog model0 = Returned d /\
                   model s = PeftModel (modelname d) (target_modules d) /\
                   tokenizer s = MkTokenizer (PStr (modelname d)) (Some "[PAD]")
     end.
Proof.
  rewrite init_run. cbv zeta.
  destruct (select_checkpoint (glob (tree O))) as [dir |]; unfold finish_init.
  - destruct (load_model_from_checkpoint O dir _) as [w1 [mt | e]] eqn:Hload;
      [| discriminate].
    apply load_model_from_checkpoint_returns in Hload. destruct Hload as [v ->].
    intros E. inversion E. unfold clear_history. destruct cm; repeat split.
  - destruct (run_full_SFT_training O _ _ _) as [w1 [mt | e]] eqn:Htrain;
      [| discriminate].
    apply run_full_SFT_training_returns in Htrain.
    destruct Htrain as (d & Hd & ->).
    assert (Hd' : model_catalog model0 = Returned d).
    { rewrite <- Hd. unfold model_catalog. rewrite normalise_idempotent.
      reflexivity. }
    intros E. inversion E. unfold clear_history.
    destruct cm; (repeat split; exists d; repeat split; exact Hd').
Qed.

End Construction.

Lemma init_session_origin_witness :
  model (clear_history Scenario.good
           {| converse_mode := false; accesstoken := "hf_token";
              device := "cuda"; RAGvecdb := ["rag_data"];
              model := PeftFromCheckpoint
                         ["glayout_llm_checkpointsphi"; "checkpoint-bestperf"];
              tokenizer := MkTokenizer
                             (PStr "microsoft/Phi-3-mini-128k-instruct")
                             (Some "[PAD]");
              pastfirst := false; chat_history := [] |}) =
  PeftFromCheckpoint ["glayout_llm_checkpointsphi"; "checkpoint-bestperf"].
Proof.
  apply (@init_session_origin Scenario.good "22b" "hf_token" false
           Scenario.empty_world _ _ eq_refl).
Defined.
